(** * scrapy_selenium.middlewares: the SeleniumMiddleware downloader middleware

    A shallow embedding of [src/scrapy_selenium/middlewares.py].  The
    middleware is glue between two external systems, Scrapy and Selenium;
    both are taken here as an interface ([Externals]) whose behaviour is
    arbitrary, and every run of a method yields the driver interactions it
    performed, in order, next to the new state and the value returned or
    the exception raised. *)

From Stdlib Require Import ZArith.
From stdpp Require Import base strings list gmap.

Set Warnings "-register-all".

Local Open Scope string_scope.
Local Open Scope list_scope.
Local Open Scope Z_scope.

(** ** Python values *)

(** The objects that reach the middleware through settings and request
    attributes.  A float is kept as its binary64 bit pattern; the
    middleware never computes with it.  [VObject] is an instance of a
    user-defined class without [__iter__] and [__len__]; [obj_items] is
    what its [items()] method yields when it has one. *)
Inductive pyval : Type :=
| VNone
| VBool (b : bool)
| VInt (n : Z)
| VFloat (bits : Z)
| VStr (s : string)
| VBytes (bs : list Byte.byte)
| VList (l : list pyval)
| VDict (kvs : list (pyval * pyval))
| VCallable (name : string)
| VObject (cls : string) (obj_items : option (list (pyval * pyval))).

(** [x is None] *)
Definition is_None (v : pyval) : bool :=
  match v with VNone => true | _ => false end.

(** [bool(x)], the test of an [if] *)
Definition truthy (v : pyval) : bool :=
  match v with
  | VNone => false
  | VBool b => b
  | VInt n => negb (n =? 0)
  | VFloat bits => negb (Z.land bits (2 ^ 63 - 1) =? 0)
  | VStr s => negb (String.length s =? 0)%nat
  | VBytes bs => negb (length bs =? 0)%nat
  | VList l => negb (length l =? 0)%nat
  | VDict kvs => negb (length kvs =? 0)%nat
  | VCallable _ => true
  | VObject _ _ => true
  end.

(** [isinstance(x, (int, float))]; [bool] is a subclass of [int]. *)
Definition isinstance_int_float (v : pyval) : bool :=
  match v with
  | VBool _ | VInt _ | VFloat _ => true
  | _ => false
  end.

(** [hasattr(x, "__iter__")] *)
Definition has_iter (v : pyval) : bool :=
  match v with
  | VStr _ | VBytes _ | VList _ | VDict _ => true
  | _ => false
  end.

Fixpoint chars (s : string) : list pyval :=
  match s with
  | EmptyString => []
  | String c s' => VStr (String c EmptyString) :: chars s'
  end.

(** What [for x in v] binds [x] to, for a [v] that has [__iter__]:
    iterating a dict yields its keys. *)
Definition py_iter (v : pyval) : option (list pyval) :=
  match v with
  | VStr s => Some (chars s)
  | VBytes bs => Some (map (fun b => VInt (Z.of_N (Byte.to_N b))) bs)
  | VList l => Some l
  | VDict kvs => Some (map fst kvs)
  | _ => None
  end.

(** [v.items()] *)
Definition py_items (v : pyval) : option (list (pyval * pyval)) :=
  match v with
  | VDict kvs => Some kvs
  | VObject _ (Some kvs) => Some kvs
  | _ => None
  end.

(** [len(v)] *)
Definition py_len (v : pyval) : option Z :=
  match v with
  | VStr s => Some (Z.of_nat (String.length s))
  | VBytes bs => Some (Z.of_nat (length bs))
  | VList l => Some (Z.of_nat (length l))
  | VDict kvs => Some (Z.of_nat (length kvs))
  | _ => None
  end.

(** [type(v).__name__], as Python's own error messages show it *)
Definition type_name (v : pyval) : string :=
  match v with
  | VNone => "NoneType"
  | VBool _ => "bool"
  | VInt _ => "int"
  | VFloat _ => "float"
  | VStr _ => "str"
  | VBytes _ => "bytes"
  | VList _ => "list"
  | VDict _ => "dict"
  | VCallable _ => "function"
  | VObject cls _ => cls
  end.

(** ** Exceptions *)

Inductive Exn : Type :=
| TimeoutException (msg : string)          (* selenium.common.exceptions *)
| WebDriverException (msg : string)
| TimeoutError (cause : Exn) (msg : string) (* twisted.internet.error *)
| IgnoreRequest (arg : Exn)                (* scrapy.exceptions *)
| NotConfigured (msg : string)
| AttributeError (msg : string)
| TypeError (msg : string)
| ValueError (msg : string)
| ModuleNotFoundError (msg : string)
| OtherError (cls msg : string).

(** ** Requests and responses *)

(** [SeleniumRequest] (declared in [http.py]) with the attributes the
    middleware reads. *)
Record SeleniumRequest : Type := {
  req_url : string;
  req_cookies : pyval;
  req_meta : gmap string pyval;
  req_timeout : pyval;
  req_wait_time : pyval;
  req_wait_until : pyval;
  req_screenshot : pyval;
  req_script_dict_list : pyval;
}.

Inductive Request : Type :=
| PlainRequest (url : string) (cookies : pyval) (meta : gmap string pyval)
| Selenium (r : SeleniumRequest).

Definition set_meta (r : SeleniumRequest) (key : string) (v : pyval)
  : SeleniumRequest :=
  {| req_url := req_url r;
     req_cookies := req_cookies r;
     req_meta := <[key := v]> (req_meta r);
     req_timeout := req_timeout r;
     req_wait_time := req_wait_time r;
     req_wait_until := req_wait_until r;
     req_screenshot := req_screenshot r;
     req_script_dict_list := req_script_dict_list r |}.

Record Response : Type := {
  resp_url : string;
  resp_body : string;
  resp_request : SeleniumRequest;
}.

(** ** The driver as the middleware sees it *)

Inductive DriverCall : Type :=
| SetPageLoadTimeout (t : pyval)
| AddCookie (cookie : pyval)
| Get (url : string)
| WebDriverWaitUntil (wait_time method : pyval)
| GetScreenshotAsPng
| HandleSeleniumScripts (script_dict_list : pyval)
| QuitDriver.

Record Options : Type := {
  binary_location : option pyval;
  arguments : list pyval;
}.

Inductive DriverSpec : Type :=
| LocalDriver (base_path : string) (executable_path : pyval) (o : Options)
| RemoteDriver (command_executor : pyval) (o : Options).

Definition DriverId := nat.

Inductive Event : Type :=
| DriverCreated (d : DriverId) (spec : DriverSpec)
| DriverCalled (d : DriverId) (c : DriverCall) (out : Exn + pyval).

(** Everything outside the repository: the Python builtins used through
    Scrapy's settings, Selenium's modules and classes, and the browser
    behind a driver, whose state is [B]. *)
Record Externals (B : Type) : Type := {
  py_float : pyval -> Exn + pyval;
  py_str : pyval -> string;
  import_module : string -> option Exn;
  options_add_argument : pyval -> option Exn;
  launch : DriverSpec -> Exn + B;
  driver_step : DriverCall -> B -> B * (Exn + pyval);
  current_url : B -> string;
  page_source : B -> string;
}.
Arguments py_float {B}.
Arguments py_str {B}.
Arguments import_module {B}.
Arguments options_add_argument {B}.
Arguments launch {B}.
Arguments driver_step {B}.
Arguments current_url {B}.
Arguments page_source {B}.

(** ** Running Python code *)

(** A run from state [S] gives the driver events it caused, the state it
    left, and the exception it raised or the value it returned. *)
Definition Py (S A : Type) : Type := S -> list Event * S * (Exn + A).

Definition ret {S A} (a : A) : Py S A := fun s => ([], s, inr a).

Definition raise {S A} (e : Exn) : Py S A := fun s => ([], s, inl e).

Definition bind {S A C} (c : Py S A) (k : A -> Py S C) : Py S C :=
  fun s =>
    match c s with
    | (evs, s1, inl e) => (evs, s1, inl e)
    | (evs, s1, inr a) =>
        match k a s1 with
        | (evs', s2, res) => (evs ++ evs', s2, res)
        end
    end.

Notation "'let!' x ':=' c 'in' k" := (bind c (fun x => k))
  (at level 10, x pattern, c at level 100, k at level 200).
Notation "c ';;' k" := (bind c (fun _ => k))
  (at level 100, k at level 200, right associativity).

(** [try: body / except <cls> as e: handler e]; [handler] is [None] on
    the exceptions the clause does not catch. *)
Definition try_except {S A} (body : Py S A) (handler : Exn -> option (Py S A))
  : Py S A :=
  fun s =>
    match body s with
    | (evs, s1, inl e) =>
        match handler e with
        | Some h =>
            match h s1 with (evs', s2, res) => (evs ++ evs', s2, res) end
        | None => (evs, s1, inl e)
        end
    | done => done
    end.

(** [for x in xs: body x] *)
Fixpoint for_each {S A} (xs : list A) (body : A -> Py S unit) : Py S unit :=
  match xs with
  | [] => ret tt
  | x :: xs' => body x;; for_each xs' body
  end.

Definition get_state {S} : Py S S := fun s => ([], s, inr s).

Definition events {S A} (run : list Event * S * (Exn + A)) : list Event :=
  run.1.1.
Definition state {S A} (run : list Event * S * (Exn + A)) : S := run.1.2.
Definition result {S A} (run : list Event * S * (Exn + A)) : Exn + A := run.2.

Definition from_sum {S A} (r : Exn + A) : Py S A := fun s => ([], s, r).

(** ** The state outside the middleware *)

Section Middleware.

Context {B : Type} (ext : Externals B).

(** The driver processes started so far, named by consecutive numbers,
    each with the state of its browser. *)
Record World : Type := {
  w_next : DriverId;
  w_browser : DriverId -> B;
}.

Definition set_browser (w : World) (d : DriverId) (b : B) : World :=
  {| w_next := w_next w;
     w_browser := fun i => if decide (i = d) then b else w_browser w i |}.

(** A method called on driver [d], or a Selenium utility applied to it. *)
Definition call (d : DriverId) (c : DriverCall) : Py World pyval :=
  fun w =>
    match driver_step ext c (w_browser w d) with
    | (b', out) => ([DriverCalled d c out], set_browser w d b', out)
    end.

(** Instantiating a driver class starts a driver process. *)
Definition new_driver (spec : DriverSpec) : Py World DriverId :=
  fun w =>
    match launch ext spec with
    | inl e => ([], w, inl e)
    | inr b =>
        let d := w_next w in
        ([DriverCreated d spec],
         set_browser {| w_next := S d; w_browser := w_browser w |} d b,
         inr d)
    end.

Definition do_import (name : string) : Py World unit :=
  match import_module ext name with
  | Some e => raise e
  | None => ret tt
  end.

(** Code that only touches the world, run next to an object [R]. *)
Definition lift {R A} (c : Py World A) : Py (World * R) A :=
  fun s =>
    match c s.1 with
    | (evs, w', res) => (evs, (w', s.2), res)
    end.

(** ** SeleniumMiddleware *)

Record Middleware : Type := {
  mw_timeout : pyval;
  mw_driver : option DriverId;   (* [None]: the attribute was never set *)
}.

(** [self.driver] *)
Definition self_driver {S} (self : Middleware) : Py S DriverId :=
  match mw_driver self with
  | Some d => ret d
  | None =>
      raise (AttributeError
               "'SeleniumMiddleware' object has no attribute 'driver'")
  end.

(** [for argument in driver_arguments: driver_options.add_argument(argument)] *)
Fixpoint add_arguments (args : list pyval) (o : Options) : Exn + Options :=
  match args with
  | [] => inr o
  | argument :: rest =>
      match options_add_argument ext argument with
      | Some e => inl e
      | None =>
          add_arguments rest
            {| binary_location := binary_location o;
               arguments := arguments o ++ [argument] |}
      end
  end.

(** [SeleniumMiddleware.__init__], lines 22-77 *)
Definition __init__
    (driver_name driver_executable_path browser_executable_path
     command_executor driver_arguments timeout : pyval)
  : Py World Middleware :=
  let webdriver_base_path :=
    ("selenium.webdriver." ++ py_str ext driver_name)%string in
  do_import (webdriver_base_path ++ ".webdriver")%string;;
  do_import (webdriver_base_path ++ ".options")%string;;
  let driver_options := {| binary_location := None; arguments := [] |} in
  let driver_options :=
    if truthy browser_executable_path
    then {| binary_location := Some browser_executable_path;
            arguments := arguments driver_options |}
    else driver_options in
  let! driver_options :=
    match py_iter driver_arguments with
    | Some args => from_sum (add_arguments args driver_options)
    | None =>
        raise (TypeError
                 ("'" ++ type_name driver_arguments
                      ++ "' object is not iterable")%string)
    end in
  if negb (is_None driver_executable_path) then
    do_import (webdriver_base_path ++ ".service")%string;;
    let! driver :=
      new_driver
        (LocalDriver webdriver_base_path driver_executable_path
           driver_options) in
    ret {| mw_timeout := timeout; mw_driver := Some driver |}
  else if negb (is_None command_executor) then
    do_import "selenium";;
    let! driver := new_driver (RemoteDriver command_executor driver_options) in
    ret {| mw_timeout := timeout; mw_driver := Some driver |}
  else
    ret {| mw_timeout := timeout; mw_driver := None |}.

(** [SeleniumMiddleware.spider_closed], lines 163-165 *)
Definition spider_closed (self : Middleware) : Py World unit :=
  let! driver := self_driver self in
  call driver QuitDriver;;
  ret tt.

(** *** from_crawler *)

Inductive Signal : Type := sig_spider_opened | sig_spider_closed.

Inductive Receiver : Type :=
| bound_spider_closed (self : Middleware)
| other_receiver (name : string).

Record Crawler : Type := {
  settings : gmap string pyval;
  signals : list (Receiver * Signal);
}.

(** Scrapy's [Settings.get(name, default)]: a value that is unset or
    [None] reads as the default. *)
Definition settings_get (st : gmap string pyval) (name : string)
    (default : pyval) : pyval :=
  match st !! name with
  | Some v => if is_None v then default else v
  | None => default
  end.

(** Scrapy's [Settings.getfloat(name)]: [float(self.get(name, 0.0))] *)
Definition settings_getfloat (st : gmap string pyval) (name : string)
  : Exn + pyval :=
  py_float ext (settings_get st name (VFloat 0)).

(** [crawler.signals.connect(receiver, signal)] *)
Definition signals_connect (recv : Receiver) (sig : Signal)
  : Py (World * Crawler) unit :=
  fun s =>
    ([], (s.1, {| settings := settings s.2;
                  signals := signals s.2 ++ [(recv, sig)] |}), inr tt).

(** [SeleniumMiddleware.from_crawler], lines 79-109 *)
Definition from_crawler : Py (World * Crawler) Middleware :=
  let! s := get_state in
  let crawler := s.2 in
  let driver_name :=
    settings_get (settings crawler) "SELENIUM_DRIVER_NAME" VNone in
  let driver_executable_path :=
    settings_get (settings crawler) "SELENIUM_DRIVER_EXECUTABLE_PATH" VNone in
  let browser_executable_path :=
    settings_get (settings crawler) "SELENIUM_BROWSER_EXECUTABLE_PATH" VNone in
  let command_executor :=
    settings_get (settings crawler) "SELENIUM_COMMAND_EXECUTOR" VNone in
  let driver_arguments :=
    settings_get (settings crawler) "SELENIUM_DRIVER_ARGUMENTS" VNone in
  let! timeout :=
    from_sum (settings_getfloat (settings crawler) "DOWNLOAD_TIMEOUT") in
  if is_None driver_name then
    raise (NotConfigured "SELENIUM_DRIVER_NAME must be set")
  else if is_None driver_executable_path && is_None command_executor then
    raise (NotConfigured
             ("Either SELENIUM_DRIVER_EXECUTABLE_PATH "
              ++ "or SELENIUM_COMMAND_EXECUTOR must be set")%string)
  else
    let! middleware :=
      lift (__init__ driver_name driver_executable_path
              browser_executable_path command_executor driver_arguments
              timeout) in
    signals_connect (bound_spider_closed middleware) sig_spider_closed;;
    ret middleware.

(** *** process_request *)

(** Modelled from the spec: [SeleniumUtilities.handle_selenium_scripts]
    ([selenium_utilities.py] is not among the sources) is the "script
    execution" the request descriptor is translated into; it is one
    operation handed to the driver with the request's script list. *)
Definition handle_selenium_scripts (driver : DriverId)
    (script_dict_list : pyval) : Py World unit :=
  call driver (HandleSeleniumScripts script_dict_list);;
  ret tt.

(** Modelled from the spec: [SeleniumUtilities.generate_scrapy_response]
    ([selenium_utilities.py] is not among the sources) "translates the
    resulting browser state back into a response object": the response
    carries the address and the page the browser shows, and the request
    it answers. *)
Definition generate_scrapy_response (driver : DriverId)
    (request : SeleniumRequest) (w : World) : Response :=
  {| resp_url := current_url ext (w_browser w driver);
     resp_body := page_source ext (w_browser w driver);
     resp_request := request |}.

Definition St : Type := World * SeleniumRequest.

(** [request], the object the method was called on *)
Definition the_request : Py St SeleniumRequest :=
  fun s => ([], s, inr s.2).

(** Lines 119-124: the page-load timeout handed to the driver. *)
Definition page_load_timeout (self : Middleware) (request : SeleniumRequest)
  : pyval :=
  let timeout := req_timeout request in
  let timeout := if is_None timeout then mw_timeout self else timeout in
  if negb (isinstance_int_float timeout) then VInt 30 else timeout.

(** Lines 119-125 *)
Definition set_timeout_step (self : Middleware) : Py St unit :=
  let! request := the_request in
  let timeout := page_load_timeout self request in
  let! driver := self_driver self in
  lift (call driver (SetPageLoadTimeout timeout));;
  ret tt.

(** Lines 129-141 *)
Definition cookies_step (self : Middleware) : Py St unit :=
  let! request := the_request in
  if has_iter (req_cookies request) then
    match py_iter (req_cookies request) with
    | Some cookies =>
        for_each cookies (fun cookie =>
          let! driver := self_driver self in
          lift (call driver (AddCookie cookie));;
          ret tt)
    | None => ret tt
    end
  else
    match py_items (req_cookies request) with
    | Some items =>
        for_each items (fun '(cookie_name, cookie_value) =>
          let! driver := self_driver self in
          lift (call driver
                  (AddCookie (VDict [(VStr "name", cookie_name);
                                     (VStr "value", cookie_value)])));;
          ret tt)
    | None =>
        raise (AttributeError
                 ("'" ++ type_name (req_cookies request)
                      ++ "' object has no attribute 'items'")%string)
    end.

(** Lines 144-147 *)
Definition navigate_step (self : Middleware) : Py St unit :=
  let! request := the_request in
  try_except
    (let! driver := self_driver self in
     lift (call driver (Get (req_url request)));;
     ret tt)
    (fun e =>
       match e with
       | TimeoutException _ =>
           Some (raise (IgnoreRequest
                          (TimeoutError e "scrapy-selenium : request timeout")))
       | _ => None
       end).

(** Lines 150-153 *)
Definition wait_step (self : Middleware) : Py St unit :=
  let! request := the_request in
  if truthy (req_wait_until request) then
    let! driver := self_driver self in
    lift (call driver
            (WebDriverWaitUntil (req_wait_time request)
               (req_wait_until request)));;
    ret tt
  else ret tt.

(** [request.meta[key] = v] *)
Definition meta_setitem (key : string) (v : pyval) : Py St unit :=
  fun s => ([], (s.1, set_meta s.2 key v), inr tt).

(** Lines 155-156 *)
Definition screenshot_step (self : Middleware) : Py St unit :=
  let! request := the_request in
  if truthy (req_screenshot request) then
    let! driver := self_driver self in
    let! png := lift (call driver GetScreenshotAsPng) in
    meta_setitem "screenshot" png
  else ret tt.

(** [request.script_dict_list and len(request.script_dict_list)], as the
    test of an [if] *)
Definition scripts_requested (script_dict_list : pyval) : Exn + bool :=
  if truthy script_dict_list then
    match py_len script_dict_list with
    | Some n => inr (negb (n =? 0))
    | None =>
        inl (TypeError
               ("object of type '" ++ type_name script_dict_list
                                   ++ "' has no len()")%string)
    end
  else inr false.

(** Lines 158-159 *)
Definition scripts_step (self : Middleware) : Py St unit :=
  let! request := the_request in
  let! requested :=
    from_sum (scripts_requested (req_script_dict_list request)) in
  if (requested : bool) then
    let! driver := self_driver self in
    lift (handle_selenium_scripts driver (req_script_dict_list request))
  else ret tt.

(** Line 161 *)
Definition response_step (self : Middleware) : Py St Response :=
  let! driver := self_driver self in
  fun s => ([], s, inr (generate_scrapy_response driver s.2 s.1)).

(** Lines 118-161: the method past its [isinstance] test. *)
Definition process_selenium_request (self : Middleware) : Py St Response :=
  set_timeout_step self;;
  cookies_step self;;
  navigate_step self;;
  wait_step self;;
  screenshot_step self;;
  scripts_step self;;
  response_step self.

(** [SeleniumMiddleware.process_request], lines 111-161.  The request
    object is part of the state: the method writes to its [meta]. *)
Definition process_request (self : Middleware)
  : Py (World * Request) (option Response) :=
  fun s =>
    match s.2 with
    | PlainRequest _ _ _ => ([], s, inr None)
    | Selenium r =>
        match process_selenium_request self (s.1, r) with
        | (evs, s', inl e) => (evs, (s'.1, Selenium s'.2), inl e)
        | (evs, s', inr response) =>
            (evs, (s'.1, Selenium s'.2), inr (Some response))
        end
    end.

(** ** A crawl, as Scrapy drives the middleware *)

(** The downloader hands each request to [process_request]; an exception
    ends that request, not the crawl. *)
Fixpoint download (self : Middleware) (requests : list Request) (w : World)
  : list Event * World * list (Request * (Exn + option Response)) :=
  match requests with
  | [] => ([], w, [])
  | request :: rest =>
      match process_request self (w, request) with
      | (evs, s', res) =>
          match download self rest s'.1 with
          | (evs', w', done) => (evs ++ evs', w', (s'.2, res) :: done)
          end
      end
  end.

(** Sending [spider_closed] calls every receiver connected to it, logging
    and dropping what a receiver raises. *)
Fixpoint send_spider_closed (receivers : list (Receiver * Signal)) (w : World)
  : list Event * World :=
  match receivers with
  | [] => ([], w)
  | (bound_spider_closed self, sig_spider_closed) :: rest =>
      match spider_closed self w with
      | (evs, w', _) =>
          match send_spider_closed rest w' with
          | (evs', w'') => (evs ++ evs', w'')
          end
      end
  | _ :: rest => send_spider_closed rest w
  end.

(** One crawl: the middleware is built from the crawler, the requests are
    downloaded, the spider is closed.  The result is every driver event
    of the crawl, in order. *)
Definition crawl (crawler : Crawler) (requests : list Request) (w : World)
  : list Event :=
  match from_crawler (w, crawler) with
  | (evs0, _, inl _) => evs0
  | (evs0, s1, inr self) =>
      match download self requests s1.1 with
      | (evs1, w2, _) =>
          evs0 ++ evs1 ++ (send_spider_closed (signals s1.2) w2).1
      end
  end.

End Middleware.

Arguments w_next {B}.
Arguments w_browser {B}.
Arguments Build_World {B}.

(** ** A small browser to run the middleware on *)

Module Demo.

Record Browser : Type := {
  shown : string;
  jar : list pyval;
  alive : bool;
}.

Definition blank : Browser :=
  {| shown := "about:blank"; jar := []; alive := true |}.

(** [b'\x89PNG'], the start of every PNG file *)
Definition png_magic : pyval :=
  VBytes [Byte.x89; Byte.x50; Byte.x4e; Byte.x47].

Definition step (c : DriverCall) (b : Browser) : Browser * (Exn + pyval) :=
  if negb (alive b) then (b, inl (WebDriverException "invalid session id"))
  else
    match c with
    | SetPageLoadTimeout _ => (b, inr VNone)
    | AddCookie (VDict kvs) =>
        ({| shown := shown b; jar := jar b ++ [VDict kvs]; alive := true |},
         inr VNone)
    | AddCookie _ => (b, inl (WebDriverException "invalid argument"))
    | Get url =>
        if String.eqb url "https://slow.example/"
        then (b, inl (TimeoutException "timeout: Timed out receiving message"))
        else if String.eqb url "https://down.example/"
        then (b, inl (WebDriverException "net::ERR_CONNECTION_REFUSED"))
        else ({| shown := url; jar := jar b; alive := true |}, inr VNone)
    | WebDriverWaitUntil _ (VCallable "never") =>
        (b, inl (TimeoutException ""))
    | WebDriverWaitUntil _ _ => (b, inr (VBool true))
    | GetScreenshotAsPng => (b, inr png_magic)
    | HandleSeleniumScripts _ => (b, inr VNone)
    | QuitDriver =>
        ({| shown := shown b; jar := jar b; alive := false |}, inr VNone)
    end.

(** The binary64 that holds the integer [n] exactly, when one does. *)
Definition float_of_Z (n : Z) : Exn + pyval :=
  if n =? 0 then inr (VFloat 0)
  else
    let a := Z.abs n in
    let e := Z.log2 a in
    if e <? 53 then
      inr (VFloat ((if n <? 0 then 2 ^ 63 else 0)
                   + (e + 1023) * 2 ^ 52
                   + (a * 2 ^ (52 - e) - 2 ^ 52)))
    else inl (OtherError "NotImplementedError" "rounding is left out").

Definition digit_of (c : Ascii.ascii) : option Z :=
  let n := Z.of_N (Ascii.N_of_ascii c) in
  if (48 <=? n) && (n <=? 57) then Some (n - 48) else None.

Fixpoint digits (s : string) (acc : Z) : option Z :=
  match s with
  | EmptyString => Some acc
  | String c s' =>
      match digit_of c with
      | Some k => digits s' (10 * acc + k)
      | None => None
      end
  end.

Fixpoint spells_no_number (s : string) : bool :=
  match s with
  | EmptyString => true
  | String c s' =>
      match digit_of c with
      | Some _ => false
      | None =>
          let n := Z.of_N (Ascii.N_of_ascii c) in
          negb ((n =? 110) || (n =? 78)) && spells_no_number s'
      end
  end.

(** [float(v)] where this demonstration needs it: floats, booleans,
    integers, strings of digits, and the strings that cannot spell a
    number (no digit, and no [n] or [N], code 110 or 78, as [inf] and
    [nan] have). *)
Definition to_float (v : pyval) : Exn + pyval :=
  match v with
  | VFloat bits => inr (VFloat bits)
  | VBool b => float_of_Z (if b then 1 else 0)
  | VInt n => float_of_Z n
  | VStr s =>
      if spells_no_number s then
        inl (ValueError
               ("could not convert string to float: '" ++ s ++ "'")%string)
      else
        match s, digits s 0 with
        | String _ _, Some n => float_of_Z n
        | _, _ =>
            inl (OtherError "NotImplementedError"
                   "parsing this literal is left out")
        end
  | VBytes _ =>
      inl (OtherError "NotImplementedError" "parsing bytes is left out")
  | _ =>
      inl (TypeError
             ("float() argument must be a string or a real number, not '"
                ++ type_name v ++ "'")%string)
  end.

(** [str(v)] for the values a driver name is given as; the others get a
    placeholder, which names no module. *)
Definition to_str (v : pyval) : string :=
  match v with
  | VStr s => s
  | VNone => "None"
  | VBool true => "True"
  | VBool false => "False"
  | _ => ("<" ++ type_name v ++ ">")%string
  end.

Definition modules : list string :=
  [ "selenium";
    "selenium.webdriver.firefox.webdriver";
    "selenium.webdriver.firefox.options";
    "selenium.webdriver.firefox.service";
    "selenium.webdriver.chrome.webdriver";
    "selenium.webdriver.chrome.options";
    "selenium.webdriver.chrome.service" ].

Definition import (name : string) : option Exn :=
  if existsb (String.eqb name) modules then None
  else Some (ModuleNotFoundError ("No module named '" ++ name ++ "'")%string).

Definition add_argument (argument : pyval) : option Exn :=
  if truthy argument then None
  else Some (ValueError "argument can not be null").

Definition ext : Externals Browser :=
  {| py_float := to_float;
     py_str := to_str;
     import_module := import;
     options_add_argument := add_argument;
     launch := fun _ => inr blank;
     driver_step := step;
     current_url := shown;
     page_source := fun b => ("<html>" ++ shown b ++ "</html>")%string |}.

Definition w0 : World := {| w_next := 0%nat; w_browser := fun _ => blank |}.

(** [settings.py] of a project that drives a local Firefox. *)
Definition configured : gmap string pyval :=
  <["SELENIUM_DRIVER_NAME" := VStr "firefox"]>
  (<["SELENIUM_DRIVER_EXECUTABLE_PATH" := VStr "/usr/bin/geckodriver"]>
  (<["SELENIUM_DRIVER_ARGUMENTS" := VList [VStr "-headless"]]>
  (<["DOWNLOAD_TIMEOUT" := VInt 180]> ∅))).

Definition crawler0 : Crawler :=
  {| settings := configured; signals := [] |}.

(** The same project without [SELENIUM_DRIVER_ARGUMENTS]. *)
Definition crawler_without_arguments : Crawler :=
  {| settings := delete "SELENIUM_DRIVER_ARGUMENTS" configured;
     signals := [] |}.

(** A project that sets no driver, and a timeout that is not a number. *)
Definition crawler_with_bad_timeout : Crawler :=
  {| settings := <["DOWNLOAD_TIMEOUT" := VStr "fast"]> ∅; signals := [] |}.

(** A middleware whose driver is process 0. *)
Definition mw : Middleware :=
  {| mw_timeout := VFloat 4640537203540230144; mw_driver := Some 0%nat |}.

Definition plain_request : Request :=
  PlainRequest "https://example.org/robots.txt" (VDict []) ∅.

Definition session_cookie : pyval :=
  VDict [(VStr "name", VStr "session"); (VStr "value", VStr "abc")].

(** [SeleniumRequest(url=..., cookies=[...], wait_time=10, wait_until=...,
    screenshot=True, script_dict_list=[...])] *)
Definition full_request : SeleniumRequest :=
  {| req_url := "https://example.org/";
     req_cookies := VList [session_cookie];
     req_meta := ∅;
     req_timeout := VNone;
     req_wait_time := VInt 10;
     req_wait_until := VCallable "presence_of_element_located";
     req_screenshot := VBool true;
     req_script_dict_list :=
       VList [VDict [(VStr "script", VStr "window.scrollTo(0, 0)")]] |}.

(** [SeleniumRequest(url=...)], every option at its default *)
Definition bare_request (url : string) : SeleniumRequest :=
  {| req_url := url;
     req_cookies := VDict [];
     req_meta := ∅;
     req_timeout := VNone;
     req_wait_time := VNone;
     req_wait_until := VNone;
     req_screenshot := VBool false;
     req_script_dict_list := VNone |}.

(** [SeleniumRequest(url=..., cookies={'session': 'abc'})] *)
Definition dict_cookie_request : SeleniumRequest :=
  {| req_url := "https://example.org/";
     req_cookies := VDict [(VStr "session", VStr "abc")];
     req_meta := ∅;
     req_timeout := VNone;
     req_wait_time := VNone;
     req_wait_until := VNone;
     req_screenshot := VBool false;
     req_script_dict_list := VNone |}.

(** [SeleniumRequest(url=..., cookies=None)] *)
Definition no_cookie_request : SeleniumRequest :=
  {| req_url := "https://example.org/";
     req_cookies := VNone;
     req_meta := ∅;
     req_timeout := VNone;
     req_wait_time := VNone;
     req_wait_until := VNone;
     req_screenshot := VBool false;
     req_script_dict_list := VNone |}.

(** [SeleniumRequest(url=..., timeout="10", screenshot=True,
    script_dict_list=5)]: a timeout that is no number and a script list
    that has no length. *)
Definition odd_request : SeleniumRequest :=
  {| req_url := "https://example.org/";
     req_cookies := VList [];
     req_meta := ∅;
     req_timeout := VStr "10";
     req_wait_time := VNone;
     req_wait_until := VNone;
     req_screenshot := VBool true;
     req_script_dict_list := VInt 5 |}.

(** [request.replace(wait_time=5, wait_until=never)]: the request with a
    condition that never holds. *)
Definition waiting_forever (r : SeleniumRequest) : SeleniumRequest :=
  {| req_url := req_url r;
     req_cookies := req_cookies r;
     req_meta := req_meta r;
     req_timeout := req_timeout r;
     req_wait_time := VInt 5;
     req_wait_until := VCallable "never";
     req_screenshot := req_screenshot r;
     req_script_dict_list := req_script_dict_list r |}.

(** A project that sets both a local driver and a remote endpoint. *)
Definition crawler_with_both : Crawler :=
  {| settings :=
       <["SELENIUM_COMMAND_EXECUTOR" := VStr "http://hub:4444/wd/hub"]>
         configured;
     signals := [(other_receiver "stats", sig_spider_closed)] |}.

End Demo.

(** ** What a run is measured against *)

Definition event_call (ev : Event) : option DriverCall :=
  match ev with
  | DriverCalled _ c _ => Some c
  | DriverCreated _ _ => None
  end.

(** The driver operations of a run, in the order they were performed. *)
Definition calls_of (evs : list Event) : list DriverCall := omap event_call evs.

Definition succeeded (ev : Event) : bool :=
  match ev with
  | DriverCalled _ _ (inl _) => false
  | _ => true
  end.

(** How an exception [e] raised by the driver operation [c] leaves
    [process_request]: line 147 rewraps the [TimeoutException] of
    [driver.get], nothing else is caught. *)
Definition surfaced (c : DriverCall) (e : Exn) : Exn :=
  match c with
  | Get _ =>
      match e with
      | TimeoutException _ =>
          IgnoreRequest (TimeoutError e "scrapy-selenium : request timeout")
      | _ => e
      end
  | _ => e
  end.

(** Exceptions raised by the Python interpreter itself. *)
Definition interpreter_error (e : Exn) : Prop :=
  match e with
  | AttributeError _ | TypeError _ => True
  | _ => False
  end.

(** The cookies handed to [driver.add_cookie], lines 129-141. *)
Definition cookie_operations (cookies : pyval) : list DriverCall :=
  if has_iter cookies then
    match py_iter cookies with
    | Some cs => map AddCookie cs
    | None => []
    end
  else
    match py_items cookies with
    | Some items =>
        map (fun kv => AddCookie (VDict [(VStr "name", kv.1);
                                         (VStr "value", kv.2)])) items
    | None => []
    end.

Definition wait_operations (request : SeleniumRequest) : list DriverCall :=
  if truthy (req_wait_until request)
  then [WebDriverWaitUntil (req_wait_time request) (req_wait_until request)]
  else [].

Definition screenshot_operations (request : SeleniumRequest)
  : list DriverCall :=
  if truthy (req_screenshot request) then [GetScreenshotAsPng] else [].

Definition script_operations (request : SeleniumRequest) : list DriverCall :=
  match scripts_requested (req_script_dict_list request) with
  | inr true => [HandleSeleniumScripts (req_script_dict_list request)]
  | _ => []
  end.

(** The driver operations of a request that is served to the end, in the
    order of the code. *)
Definition driver_operations (self : Middleware) (request : SeleniumRequest)
  : list DriverCall :=
  [SetPageLoadTimeout (page_load_timeout self request)]
  ++ cookie_operations (req_cookies request)
  ++ [Get (req_url request)]
  ++ wait_operations request
  ++ screenshot_operations request
  ++ script_operations request.

(** Where the interpreter itself stops a request: [Some cs] when it
    raises once the operations [cs] of the step are done. *)
Definition cookie_break (cookies : pyval) : option (list DriverCall) :=
  if has_iter cookies then None
  else match py_items cookies with
       | Some _ => None
       | None => Some []      (* no [items] attribute *)
       end.

Definition script_break (request : SeleniumRequest)
  : option (list DriverCall) :=
  match scripts_requested (req_script_dict_list request) with
  | inl _ => Some []          (* no [len()] *)
  | inr _ => None
  end.

(** [break] of a step, then of the step after it, which starts once the
    operations [cs] of the first are done. *)
Definition then_break (brk : option (list DriverCall)) (cs : list DriverCall)
    (brk' : option (list DriverCall)) : option (list DriverCall) :=
  match brk with
  | Some l => Some l
  | None => app cs <$> brk'
  end.

(** The operations done when the interpreter stops the request, if it
    does: before any cookie when [cookies] has neither [__iter__] nor
    [items], after the screenshot when the script list has no length. *)
Definition interpreter_break (self : Middleware) (request : SeleniumRequest)
  : option (list DriverCall) :=
  match cookie_break (req_cookies request) with
  | Some _ => Some [SetPageLoadTimeout (page_load_timeout self request)]
  | None =>
      match script_break request with
      | Some _ => Some (driver_operations self request)
      | None => None
      end
  end.

(** The steps named by the specification, numbered in the order it lists
    them: navigation, cookie injection, wait conditions, script
    execution, screenshot capture. *)
Definition listed_position (c : DriverCall) : option nat :=
  match c with
  | Get _ => Some 0%nat
  | AddCookie _ => Some 1%nat
  | WebDriverWaitUntil _ _ => Some 2%nat
  | HandleSeleniumScripts _ => Some 3%nat
  | GetScreenshotAsPng => Some 4%nat
  | _ => None
  end.

(** The same steps numbered in the order of lines 125-159. *)
Definition code_position (c : DriverCall) : option nat :=
  match c with
  | SetPageLoadTimeout _ => Some 0%nat
  | AddCookie _ => Some 1%nat
  | Get _ => Some 2%nat
  | WebDriverWaitUntil _ _ => Some 3%nat
  | GetScreenshotAsPng => Some 4%nat
  | HandleSeleniumScripts _ => Some 5%nat
  | QuitDriver => None
  end.

Fixpoint ascending (ns : list nat) : bool :=
  match ns with
  | n :: ((m :: _) as rest) => (n <=? m)%nat && ascending rest
  | _ => true
  end.

(** No operation is performed after one that [position] places later. *)
Definition in_order (position : DriverCall -> option nat)
    (cs : list DriverCall) : bool :=
  ascending (omap position cs).

(** What the driver answers when handed [cs] one after another. *)
Fixpoint replay {B} (ext : Externals B) (d : DriverId)
    (cs : list DriverCall) (b : B) : list Event * B :=
  match cs with
  | [] => ([], b)
  | c :: cs' =>
      match driver_step ext c b with
      | (b', out) =>
          match replay ext d cs' b' with
          | (evs, b'') => (DriverCalled d c out :: evs, b'')
          end
      end
  end.

(** Two states of one request object that differ at most in
    [meta['screenshot']]. *)
Definition frame (r r' : SeleniumRequest) : Prop :=
  req_url r' = req_url r /\
  req_cookies r' = req_cookies r /\
  req_timeout r' = req_timeout r /\
  req_wait_time r' = req_wait_time r /\
  req_wait_until r' = req_wait_until r /\
  req_screenshot r' = req_screenshot r /\
  req_script_dict_list r' = req_script_dict_list r /\
  forall key : string, key <> "screenshot" ->
    req_meta r' !! key = req_meta r !! key.

Definition is_wait (c : DriverCall) : bool :=
  match c with WebDriverWaitUntil _ _ => true | _ => false end.

Definition is_add_cookie (c : DriverCall) : bool :=
  match c with AddCookie _ => true | _ => false end.

Definition is_get (c : DriverCall) : bool :=
  match c with Get _ => true | _ => false end.

Definition is_quit (c : DriverCall) : bool :=
  match c with QuitDriver => true | _ => false end.

Definition is_created (ev : Event) : bool :=
  match ev with DriverCreated _ _ => true | _ => false end.

(** A call on driver [d] other than [quit] *)
Definition is_use_of (d : DriverId) (ev : Event) : bool :=
  match ev with
  | DriverCalled d' c _ => bool_decide (d' = d) && negb (is_quit c)
  | DriverCreated _ _ => false
  end.

(** [crawler.settings.get(name) is None] *)
Definition unset (st : gmap string pyval) (name : string) : bool :=
  is_None (settings_get st name VNone).

(** The crawler once [middleware.spider_closed] is connected to the
    [spider_closed] signal. *)
Definition connected (crawler : Crawler) (middleware : Middleware) : Crawler :=
  {| settings := settings crawler;
     signals := signals crawler
                ++ [(bound_spider_closed middleware, sig_spider_closed)] |}.

(** No [SeleniumMiddleware] is connected to the crawler's signals yet. *)
Definition fresh (crawler : Crawler) : bool :=
  forallb (fun rs => match rs.1 with
                     | bound_spider_closed _ => false
                     | other_receiver _ => true
                     end) (signals crawler).

(** ** The invariant of [process_request] *)

(** A run of a piece of code obeys the plan [cs] when it performs, on
    driver [d] alone, a prefix of [cs] (all of it when the run returns),
    stops at the first operation that raises, is stopped by the
    interpreter only as [brk] says, and touches nothing of the request
    but [meta['screenshot']]. *)
Definition obeys {B} (ext : Externals B) (d : DriverId) {A}
    (cs : list DriverCall) (brk : option (list DriverCall))
    (w : World (B:=B)) (r : SeleniumRequest)
    (run : list Event * St (B:=B) * (Exn + A)) : Prop :=
  frame r (state run).2 /\
  w_next (state run).1 = w_next w /\
  (forall i, i <> d -> w_browser (state run).1 i = w_browser w i) /\
  replay ext d (calls_of (events run)) (w_browser w d)
    = (events run, w_browser (state run).1 d) /\
  calls_of (events run) `prefix_of` cs /\
  match result run with
  | inr _ =>
      calls_of (events run) = cs /\ forallb succeeded (events run) = true /\
      brk = None
  | inl e =>
      (forallb succeeded (events run) = true /\ interpreter_error e /\
       brk = Some (calls_of (events run))) \/
      (exists evs0 c e0,
          events run = evs0 ++ [DriverCalled d c (inl e0)] /\
          forallb succeeded evs0 = true /\
          e = surfaced c e0)
  end.

(** Code is governed by [P] and [K] when every run obeys them. *)
Definition governed {B} (ext : Externals B) (d : DriverId) {A}
    (P : SeleniumRequest -> list DriverCall)
    (K : SeleniumRequest -> option (list DriverCall))
    (c : Py (St (B:=B)) A) : Prop :=
  forall w r, obeys ext d (P r) (K r) w r (c (w, r)).

Definition respects_frame {X} (P : SeleniumRequest -> X) : Prop :=
  forall r r', frame r r' -> P r' = P r.

(** ** What a run leaves of the request *)

Definition is_screenshot (c : DriverCall) : bool :=
  match c with GetScreenshotAsPng => true | _ => false end.

Definition is_scripts (c : DriverCall) : bool :=
  match c with HandleSeleniumScripts _ => true | _ => false end.

Definition is_set_timeout (c : DriverCall) : bool :=
  match c with SetPageLoadTimeout _ => true | _ => false end.

(** The request once the answer of one driver operation is in: line 156
    stores the bytes a screenshot returned. *)
Definition stored_screenshot (r : SeleniumRequest) (ev : Event)
  : SeleniumRequest :=
  match ev with
  | DriverCalled _ GetScreenshotAsPng (inr png) => set_meta r "screenshot" png
  | _ => r
  end.

Definition request_after (r : SeleniumRequest) (evs : list Event)
  : SeleniumRequest :=
  fold_left stored_screenshot evs r.

(** Code tracks the request when the request it leaves is the one it
    found with the screenshots of the run stored. *)
Definition tracks {B A} (c : Py (St (B:=B)) A) : Prop :=
  forall w r,
    (state (c (w, r))).2 = request_after r (events (c (w, r))).

(** [add_argument] takes every argument of the list. *)
Definition accepted {B} (ext : Externals B) (args : list pyval) : Prop :=
  Forall (fun argument => options_add_argument ext argument = None) args.

(** * Proofs *)

(** ** The monad *)

Ltac unfold_run := unfold events, state, result in *; simpl in *.
Ltac project_run := unfold events, state, result in *; cbn [fst snd] in *.

Lemma calls_of_app evs evs' :
  calls_of (evs ++ evs') = calls_of evs ++ calls_of evs'.
Proof. apply omap_app. Qed.

Lemma replay_app {B} (ext : Externals B) d cs cs' b :
  replay ext d (cs ++ cs') b =
  ((replay ext d cs b).1 ++ (replay ext d cs' (replay ext d cs b).2).1,
   (replay ext d cs' (replay ext d cs b).2).2).
Proof.
  revert b. induction cs as [|c cs IH]; intros b; simpl.
  - by destruct (replay ext d cs' b).
  - destruct (driver_step ext c b) as [b' out]. rewrite IH.
    destruct (replay ext d cs b') as [evs b'']. simpl.
    by destruct (replay ext d cs' b'').
Qed.

Lemma frame_refl r : frame r r.
Proof. by repeat split. Qed.

Lemma frame_trans r1 r2 r3 : frame r1 r2 -> frame r2 r3 -> frame r1 r3.
Proof.
  unfold frame. intros (?&?&?&?&?&?&?&H12) (?&?&?&?&?&?&?&H23).
  repeat split; try congruence.
  intros key Hk. rewrite H23, H12; done.
Qed.

Lemma frame_set_meta r v : frame r (set_meta r "screenshot" v).
Proof.
  repeat split. simpl. intros key Hk. by rewrite lookup_insert_ne.
Qed.

Lemma bind_ret_l {S A C} (a : A) (k : A -> Py S C) s :
  bind (ret a) k s = k a s.
Proof. unfold bind, ret. by destruct (k a s) as [[evs s'] res]. Qed.

Lemma bind_the_request {B C} (k : SeleniumRequest -> Py (St (B:=B)) C) s :
  bind the_request k s = k s.2 s.
Proof.
  unfold bind, the_request. by destruct (k s.2 s) as [[evs s'] res].
Qed.

Lemma bind_from_sum_inr {S A C} (a : A) (k : A -> Py S C) s :
  bind (from_sum (inr a)) k s = k a s.
Proof. apply bind_ret_l. Qed.

Lemma for_each_ext {S X} (xs : list X) (body body' : X -> Py S unit) s :
  (forall x s', body x s' = body' x s') ->
  for_each xs body s = for_each xs body' s.
Proof.
  intros Hb. revert s. induction xs as [|x xs IH]; intros s; [done|].
  simpl. unfold bind. rewrite Hb.
  destruct (body' x s) as [[evs s1] [e|[]]]; [done|]. by rewrite IH.
Qed.

(** ** One invariant for every piece of [process_request] *)

Section Governed.

Context {B : Type} (ext : Externals B).
Context (self : Middleware) (d : DriverId).
Hypothesis self_has_driver : mw_driver self = Some d.

Lemma obeys_ret {A} (a : A) w r : obeys ext d [] None w r (ret a (w, r)).
Proof. unfold obeys. unfold_run. split_and!; auto using frame_refl. Qed.

Lemma obeys_raise {A} e w r :
  interpreter_error e -> obeys ext d (A:=A) [] (Some []) w r (raise e (w, r)).
Proof.
  intros He. unfold obeys. unfold_run. split_and!; auto using frame_refl.
Qed.

Lemma obeys_bind {A C} cs1 brk1 P2 K2 (c : Py St A) (k : A -> Py St C) w r :
  obeys ext d cs1 brk1 w r (c (w, r)) ->
  (forall a, governed ext d P2 K2 (k a)) ->
  respects_frame P2 -> respects_frame K2 ->
  obeys ext d (cs1 ++ P2 r) (then_break brk1 cs1 (K2 r)) w r (bind c k (w, r)).
Proof.
  intros Hc Hk HP2 HK2. unfold bind, obeys in *.
  destruct (c (w, r)) as [[evs1 [w1 r1]] [e|a]]; unfold_run.
  - destruct Hc as (Hf & Hn & Ho & Hr & Hp & He).
    split_and!; auto; [by apply prefix_app_r|].
    destruct He as [(?&?&->)|?]; auto.
  - destruct Hc as (Hf & Hn & Ho & Hr & Hp & Hc1 & Hs1 & ->).
    specialize (Hk a w1 r1). unfold obeys in Hk.
    destruct (k a (w1, r1)) as [[evs2 [w2 r2]] res]; unfold_run.
    destruct Hk as (Hf2 & Hn2 & Ho2 & Hr2 & Hp2 & Hres).
    rewrite (HP2 _ _ Hf), (HK2 _ _ Hf) in *.
    split; [by eapply frame_trans|].
    split; [congruence|].
    split; [intros i Hi; rewrite Ho2, Ho; done|].
    split.
    { rewrite calls_of_app, replay_app, Hr. simpl. by rewrite Hr2. }
    split.
    { rewrite calls_of_app, Hc1. by apply prefix_app. }
    destruct res as [e|c'].
    + destruct Hres as [(Hs2 & He & ->)|(evs0 & c0 & e0 & -> & Hs0 & ->)].
      * left. rewrite forallb_app, Hs1, Hs2, calls_of_app, Hc1. done.
      * right. exists (evs1 ++ evs0), c0, e0.
        rewrite forallb_app, Hs1, Hs0, (assoc_L (++)). done.
    + destruct Hres as (Hc2 & Hs2 & ->).
      rewrite calls_of_app, Hc1, Hc2, forallb_app, Hs1, Hs2. done.
Qed.

Lemma governed_bind {A C} P1 K1 P2 K2 (c : Py St A) (k : A -> Py St C) :
  governed ext d P1 K1 c -> (forall a, governed ext d P2 K2 (k a)) ->
  respects_frame P2 -> respects_frame K2 ->
  governed ext d (fun r => P1 r ++ P2 r)
           (fun r => then_break (K1 r) (P1 r) (K2 r)) (bind c k).
Proof. intros Hc Hk HP2 HK2 w r. by apply obeys_bind. Qed.

Lemma respects_frame_const {X} (x : X) : respects_frame (fun _ => x).
Proof. done. Qed.

(** [self.driver.<c>(...)] outside the [try] of line 144 *)
Lemma obeys_driver_call {A} c (k : pyval -> Py St A) w r :
  is_get c = false ->
  (forall v, governed ext d (fun _ => []) (fun _ => None) (k v)) ->
  obeys ext d [c] None w r
    ((let! driver := self_driver self in
      let! v := lift (call ext driver c) in k v) (w, r)).
Proof.
  intros Hc Hk. unfold self_driver. rewrite self_has_driver, bind_ret_l.
  apply (obeys_bind [c] None (fun _ => []) (fun _ => None)); [|done..].
  unfold obeys, lift, call. simpl.
  destruct (driver_step ext c (w_browser w d)) as [b' out] eqn:Hstep.
  unfold_run. rewrite Hstep.
  split; [apply frame_refl|].
  split; [done|].
  split; [intros i Hi; by rewrite decide_False|].
  split; [by rewrite decide_True|].
  split; [done|].
  destruct out as [e|v]; [|done].
  right. exists [], c, e. split_and!; [done..|].
  by destruct c.
Qed.

Lemma governed_ret {A} (a : A) :
  governed ext d (fun _ => []) (fun _ => None) (ret a).
Proof. intros w r. apply obeys_ret. Qed.

(** [for x in xs: self.driver.add_cookie(f x)] *)
Lemma governed_for_each {X} (f : X -> pyval) (xs : list X) :
  governed ext d (fun _ => map (fun x => AddCookie (f x)) xs) (fun _ => None)
    (for_each xs (fun x =>
       let! driver := self_driver self in
       lift (call ext driver (AddCookie (f x)));;
       ret tt)).
Proof.
  induction xs as [|x xs IH]; simpl.
  - apply governed_ret.
  - intros w r.
    apply (obeys_bind [AddCookie (f x)] None
             (fun _ => map (fun x => AddCookie (f x)) xs) (fun _ => None));
      [|done..].
    apply obeys_driver_call; [done|]. intros _. apply governed_ret.
Qed.

(** *** The steps *)

Lemma governed_set_timeout_step :
  governed ext d (fun r => [SetPageLoadTimeout (page_load_timeout self r)])
    (fun _ => None) (set_timeout_step ext self).
Proof.
  intros w r. unfold set_timeout_step. rewrite bind_the_request. simpl.
  apply obeys_driver_call; [done|]. intros _. apply governed_ret.
Qed.

Lemma governed_cookies_step :
  governed ext d (fun r => cookie_operations (req_cookies r))
    (fun r => cookie_break (req_cookies r)) (cookies_step ext self).
Proof.
  intros w r. unfold cookies_step, cookie_operations, cookie_break.
  rewrite bind_the_request. simpl.
  destruct (has_iter (req_cookies r)).
  - destruct (py_iter (req_cookies r)) as [cs|].
    + apply (governed_for_each id).
    + apply obeys_ret.
  - destruct (py_items (req_cookies r)) as [items|].
    + pose proof (governed_for_each
        (fun kv : pyval * pyval =>
           VDict [(VStr "name", kv.1); (VStr "value", kv.2)]) items w r) as H.
      erewrite for_each_ext; [exact H|]. by intros [? ?] ?.
    + by apply obeys_raise.
Qed.

Lemma governed_navigate_step :
  governed ext d (fun r => [Get (req_url r)]) (fun _ => None)
    (navigate_step ext self).
Proof.
  intros w r. unfold navigate_step. rewrite bind_the_request. simpl.
  unfold try_except, self_driver. rewrite self_has_driver, bind_ret_l.
  unfold bind, lift, call, obeys. simpl.
  destruct (driver_step ext (Get (req_url r)) (w_browser w d))
    as [b' out] eqn:Hstep.
  assert (Hcommon :
    forall res : Exn + unit,
      let run : list Event * St (B:=B) * (Exn + unit) :=
        ([DriverCalled d (Get (req_url r)) out], (set_browser w d b', r), res)
      in
      frame r (state run).2 /\
      w_next (state run).1 = w_next w /\
      (forall i, i <> d -> w_browser (state run).1 i = w_browser w i) /\
      replay ext d (calls_of (events run)) (w_browser w d)
        = (events run, w_browser (state run).1 d) /\
      calls_of (events run) `prefix_of` [Get (req_url r)]).
  { intros res. unfold_run. rewrite Hstep.
    split_and!; [apply frame_refl|done| |by rewrite decide_True|done].
    intros i Hi. by rewrite decide_False. }
  destruct out as [e|v].
  - assert (Hright :
      exists evs0 c e0,
        [DriverCalled d (Get (req_url r)) (inl e)]
          = evs0 ++ [DriverCalled d c (inl e0)] /\
        forallb succeeded evs0 = true /\
        surfaced (Get (req_url r)) e = surfaced c e0).
    { by exists [], (Get (req_url r)), e. }
    destruct e; unfold_run;
      (destruct (Hcommon (inl (OtherError "" ""))) as (?&?&?&?&?);
       unfold_run; split_and!; [done..|]; right; exact Hright).
  - destruct (Hcommon (inr tt)) as (?&?&?&?&?). unfold_run.
    split_and!; done.
Qed.

Lemma governed_wait_step :
  governed ext d wait_operations (fun _ => None) (wait_step ext self).
Proof.
  intros w r. unfold wait_step, wait_operations. rewrite bind_the_request.
  simpl. destruct (truthy (req_wait_until r)).
  - apply obeys_driver_call; [done|]. intros _. apply governed_ret.
  - apply obeys_ret.
Qed.

Lemma governed_meta_setitem v :
  governed ext d (fun _ => []) (fun _ => None) (meta_setitem "screenshot" v).
Proof.
  intros w r. unfold obeys, meta_setitem. unfold_run.
  split_and!; auto using frame_set_meta.
Qed.

Lemma governed_screenshot_step :
  governed ext d screenshot_operations (fun _ => None)
    (screenshot_step ext self).
Proof.
  intros w r. unfold screenshot_step, screenshot_operations.
  rewrite bind_the_request. simpl. destruct (truthy (req_screenshot r)).
  - apply obeys_driver_call; [done|]. apply governed_meta_setitem.
  - apply obeys_ret.
Qed.

Lemma lift_handle_selenium_scripts l (s : St (B:=B)) :
  lift (handle_selenium_scripts ext d l) s
  = (lift (call ext d (HandleSeleniumScripts l));; ret tt) s.
Proof.
  unfold handle_selenium_scripts, lift, bind, call. simpl.
  by destruct (driver_step ext (HandleSeleniumScripts l) (w_browser s.1 d))
    as [b' [e|v]].
Qed.

Lemma governed_scripts_step :
  governed ext d script_operations script_break (scripts_step ext self).
Proof.
  intros w r. unfold scripts_step, script_operations, script_break.
  rewrite bind_the_request. simpl.
  destruct (scripts_requested (req_script_dict_list r)) as [e|[|]] eqn:Hreq.
  - unfold scripts_requested in Hreq.
    destruct (truthy _); [|done]. destruct (py_len _); [done|].
    injection Hreq as <-. by apply obeys_raise.
  - rewrite bind_from_sum_inr.
    pose proof (obeys_driver_call (A:=unit)
      (HandleSeleniumScripts (req_script_dict_list r))
      (fun _ => ret tt) w r eq_refl (fun _ => governed_ret tt)) as H.
    unfold self_driver in *. rewrite self_has_driver, bind_ret_l in *.
    by rewrite lift_handle_selenium_scripts.
  - rewrite bind_from_sum_inr. apply obeys_ret.
Qed.

Lemma governed_response_step :
  governed ext d (fun _ => []) (fun _ => None) (response_step ext self).
Proof.
  intros w r. unfold response_step, self_driver.
  rewrite self_has_driver, bind_ret_l. unfold obeys. unfold_run.
  split_and!; auto using frame_refl.
Qed.

Lemma respects_frame_app (P1 P2 : SeleniumRequest -> list DriverCall) :
  respects_frame P1 -> respects_frame P2 ->
  respects_frame (fun r => P1 r ++ P2 r).
Proof. intros H1 H2 r r' Hf. by rewrite (H1 _ _ Hf), (H2 _ _ Hf). Qed.

Lemma respects_frame_then K1 (P1 : SeleniumRequest -> list DriverCall) K2 :
  respects_frame K1 -> respects_frame P1 -> respects_frame K2 ->
  respects_frame (fun r => then_break (K1 r) (P1 r) (K2 r)).
Proof.
  intros H1 H2 H3 r r' Hf. by rewrite (H1 _ _ Hf), (H2 _ _ Hf), (H3 _ _ Hf).
Qed.

Lemma respects_frame_wait : respects_frame wait_operations.
Proof.
  intros r r' (?&?&?&Hwt&Hwu&?). unfold wait_operations.
  by rewrite Hwt, Hwu.
Qed.

Lemma respects_frame_screenshot : respects_frame screenshot_operations.
Proof.
  intros r r' (?&?&?&?&?&Hs&?). unfold screenshot_operations. by rewrite Hs.
Qed.

Lemma respects_frame_script : respects_frame script_operations.
Proof.
  intros r r' (?&?&?&?&?&?&Hs&?). unfold script_operations. by rewrite Hs.
Qed.

Lemma respects_frame_script_break : respects_frame script_break.
Proof.
  intros r r' (?&?&?&?&?&?&Hs&?). unfold script_break. by rewrite Hs.
Qed.

Lemma respects_frame_get : respects_frame (fun r => [Get (req_url r)]).
Proof. intros r r' (Hu&?). by rewrite Hu. Qed.

Lemma respects_frame_cookies :
  respects_frame (fun r => cookie_operations (req_cookies r)).
Proof. intros r r' (?&Hc&?). by rewrite Hc. Qed.

Lemma respects_frame_cookie_break :
  respects_frame (fun r => cookie_break (req_cookies r)).
Proof. intros r r' (?&Hc&?). by rewrite Hc. Qed.

Lemma cookie_break_operations cookies l :
  cookie_break cookies = Some l -> cookie_operations cookies = [].
Proof.
  unfold cookie_break, cookie_operations.
  destruct (has_iter cookies); [done|]. by destruct (py_items cookies).
Qed.

(** Every run of the method's body obeys [driver_operations] and
    [interpreter_break]. *)
Lemma governed_process_selenium_request :
  governed ext d (driver_operations self) (interpreter_break self)
    (process_selenium_request ext self).
Proof.
  pose proof respects_frame_wait. pose proof respects_frame_screenshot.
  pose proof respects_frame_script. pose proof respects_frame_get.
  pose proof respects_frame_cookies. pose proof respects_frame_script_break.
  pose proof respects_frame_cookie_break.
  pose proof (respects_frame_const (X:=list DriverCall) []).
  pose proof (respects_frame_const (X:=option (list DriverCall)) None).
  assert (Hgov : governed ext d
    (fun r => [SetPageLoadTimeout (page_load_timeout self r)]
       ++ cookie_operations (req_cookies r) ++ [Get (req_url r)]
       ++ wait_operations r ++ screenshot_operations r
       ++ script_operations r ++ [])
    (fun r =>
       then_break None [SetPageLoadTimeout (page_load_timeout self r)]
         (then_break (cookie_break (req_cookies r))
            (cookie_operations (req_cookies r))
            (then_break None [Get (req_url r)]
               (then_break None (wait_operations r)
                  (then_break None (screenshot_operations r)
                     (then_break (script_break r) (script_operations r)
                        None))))))
    (process_selenium_request ext self)).
  { unfold process_selenium_request.
    apply (governed_bind _ (fun _ => None) _ _ _ _
             governed_set_timeout_step);
      [|auto 12 using respects_frame_app, respects_frame_then..].
    intros _. apply (governed_bind _ _ _ _ _ _ governed_cookies_step);
      [|auto 12 using respects_frame_app, respects_frame_then..].
    intros _. apply (governed_bind _ (fun _ => None) _ _ _ _
                       governed_navigate_step);
      [|auto 12 using respects_frame_app, respects_frame_then..].
    intros _. apply (governed_bind _ (fun _ => None) _ _ _ _
                       governed_wait_step);
      [|auto 12 using respects_frame_app, respects_frame_then..].
    intros _. apply (governed_bind _ (fun _ => None) _ _ _ _
                       governed_screenshot_step);
      [|auto 12 using respects_frame_app, respects_frame_then..].
    intros _. apply (governed_bind _ _ (fun _ => []) (fun _ => None) _ _
                       governed_scripts_step);
      [|auto 12 using respects_frame_app, respects_frame_then..].
    intros _. apply governed_response_step. }
  intros w r. specialize (Hgov w r). simpl in Hgov.
  rewrite app_nil_r in Hgov.
  unfold driver_operations, interpreter_break. simpl.
  destruct (cookie_break (req_cookies r)) as [l|] eqn:Hcb.
  - simpl in Hgov. rewrite (cookie_break_operations _ _ Hcb) in Hgov.
    simpl in Hgov.
    destruct Hgov as (Hf & Hn & Ho & Hr & Hp & Hres).
    assert (l = []) as ->.
    { unfold cookie_break in Hcb. destruct (has_iter _); [done|].
      destruct (py_items _); congruence. }
    rewrite (cookie_break_operations _ _ Hcb). simpl.
    split_and!; done.
  - simpl in Hgov. destruct (script_break r) as [l|] eqn:Hsb; simpl in Hgov.
    + assert (l = [] /\ script_operations r = []) as [-> Hso].
      { unfold script_break, script_operations in *.
        destruct (scripts_requested _); [|done]. by injection Hsb as <-. }
      unfold driver_operations. rewrite Hso in *. exact Hgov.
    + exact Hgov.
Qed.

End Governed.

(** ** The method as a whole *)

Section Method.

Context {B : Type} (ext : Externals B).

Lemma process_request_selenium self w r :
  process_request ext self (w, Selenium r) =
  let run := process_selenium_request ext self (w, r) in
  let res : Exn + option Response :=
    match result run with
    | inl e => inl e
    | inr response => inr (Some response)
    end in
  (events run, ((state run).1, Selenium (state run).2), res).
Proof.
  unfold process_request. simpl.
  by destruct (process_selenium_request ext self (w, r)) as [[evs s'] [e|x]].
Qed.

(** Without a driver the first [self.driver] of line 125 raises. *)
Lemma process_selenium_request_no_driver self w r :
  mw_driver self = None ->
  process_selenium_request ext self (w, r) =
  ([], (w, r),
   inl (AttributeError
          "'SeleniumMiddleware' object has no attribute 'driver'")).
Proof.
  intros Hd. unfold process_selenium_request, set_timeout_step, bind.
  simpl. unfold self_driver. by rewrite Hd.
Qed.

Lemma bind_returns {S A C} (c : Py S A) (k : A -> Py S C) s x :
  result (bind c k s) = inr x ->
  exists a, result (c s) = inr a /\
            result (k a (state (c s))) = inr x /\
            state (bind c k s) = state (k a (state (c s))).
Proof.
  unfold bind. destruct (c s) as [[evs s1] [e|a]]; unfold_run; [done|].
  destruct (k a s1) as [[evs' s2] res] eqn:Hk. unfold_run.
  intros ->. exists a. by rewrite Hk.
Qed.

(** What is returned is [generate_scrapy_response] applied to the state
    the run ends in. *)
Lemma process_selenium_request_returns self d w r response :
  mw_driver self = Some d ->
  let run := process_selenium_request ext self (w, r) in
  result run = inr response ->
  response = generate_scrapy_response ext d (state run).2 (state run).1.
Proof.
  intros Hd run. subst run. unfold process_selenium_request.
  intros H.
  repeat (apply bind_returns in H as (_ & _ & H & ->)).
  revert H.
  match goal with
  | |- context [response_step ext self ?s0] => generalize s0
  end.
  intros s. unfold response_step, self_driver. rewrite Hd, bind_ret_l.
  unfold_run. congruence.
Qed.

(** Either the middleware has no driver and the method raises at once,
    or every run obeys the plan on the driver it has. *)
Lemma process_selenium_request_obeys self w r :
  exists d,
    (mw_driver self = None \/ mw_driver self = Some d) /\
    obeys ext d (driver_operations self r)
      (match mw_driver self with
       | Some _ => interpreter_break self r
       | None => Some []
       end) w r (process_selenium_request ext self (w, r)).
Proof.
  destruct (mw_driver self) as [d|] eqn:Hd.
  - exists d. split; [by right|].
    by apply governed_process_selenium_request.
  - exists 0%nat. split; [by left|].
    rewrite process_selenium_request_no_driver by done.
    unfold obeys. unfold_run.
    split_and!; auto using frame_refl. apply prefix_nil.
Qed.

End Method.

(** ** Lists of operations *)

Lemma prefix_app_split {X} (l A R : list X) :
  l `prefix_of` A ++ R ->
  l `prefix_of` A \/ exists l', l = A ++ l' /\ l' `prefix_of` R.
Proof.
  revert l. induction A as [|a A IH]; intros l Hl; simpl in *.
  - right. by exists l.
  - destruct l as [|x l]; [left; apply prefix_nil|].
    apply prefix_cons_inv_1 in Hl as Hx. subst x.
    apply prefix_cons_inv_2 in Hl.
    destruct (IH _ Hl) as [Hp|(l' & -> & Hp)].
    + left. by apply prefix_cons.
    + right. by exists l'.
Qed.

Lemma filter_prefix {X} (f : X -> bool) (l l' : list X) :
  l `prefix_of` l' -> List.filter f l `prefix_of` List.filter f l'.
Proof. intros [k ->]. rewrite List.filter_app. by apply prefix_app_r. Qed.

Lemma filter_none {X} (f : X -> bool) (l : list X) :
  (forall x, x ∈ l -> f x = false) -> List.filter f l = [].
Proof.
  induction l as [|x l IH]; intros Hl; [done|]. simpl.
  rewrite (Hl x) by apply list_elem_of_here.
  apply IH. intros y Hy. apply Hl. by apply list_elem_of_further.
Qed.

Lemma ascending_app_l ns ms :
  ascending (ns ++ ms) = true -> ascending ns = true.
Proof.
  induction ns as [|n [|m ns] IH]; simpl; auto.
  intros [? ?]%andb_prop. simpl in IH. rewrite IH; [|done].
  by rewrite andb_true_r.
Qed.

Lemma in_order_prefix position (l l' : list DriverCall) :
  l `prefix_of` l' -> in_order position l' = true -> in_order position l = true.
Proof.
  intros [k ->]. unfold in_order. rewrite omap_app. apply ascending_app_l.
Qed.

Lemma calls_of_elem d c out evs :
  DriverCalled d c out ∈ evs -> c ∈ calls_of evs.
Proof.
  intros H. apply list_elem_of_omap. by exists (DriverCalled d c out).
Qed.

Lemma cookie_operations_kind cookies c :
  c ∈ cookie_operations cookies -> exists v, c = AddCookie v.
Proof.
  unfold cookie_operations.
  destruct (has_iter cookies).
  - destruct (py_iter cookies); [|by intros ?%elem_of_nil].
    intros (v & -> & _)%list_elem_of_fmap. by exists v.
  - destruct (py_items cookies); [|by intros ?%elem_of_nil].
    intros (v & -> & _)%list_elem_of_fmap. by eexists.
Qed.

Lemma wait_operations_kind r c :
  c ∈ wait_operations r ->
  c = WebDriverWaitUntil (req_wait_time r) (req_wait_until r) /\
  truthy (req_wait_until r) = true.
Proof.
  unfold wait_operations. destruct (truthy _).
  - by intros ->%list_elem_of_singleton.
  - by intros ?%elem_of_nil.
Qed.

Lemma screenshot_operations_kind r c :
  c ∈ screenshot_operations r -> c = GetScreenshotAsPng.
Proof.
  unfold screenshot_operations. destruct (truthy _).
  - by intros ->%list_elem_of_singleton.
  - by intros ?%elem_of_nil.
Qed.

Lemma script_operations_kind r c :
  c ∈ script_operations r ->
  c = HandleSeleniumScripts (req_script_dict_list r).
Proof.
  unfold script_operations. destruct (scripts_requested _) as [|[|]].
  - by intros ?%elem_of_nil.
  - by intros ->%list_elem_of_singleton.
  - by intros ?%elem_of_nil.
Qed.

Lemma ascending_const n ns :
  (forall x, x ∈ ns -> x = n) -> ascending ns = true.
Proof.
  induction ns as [|a [|b ns] IH]; intros H; [done..|].
  change (((a <=? b)%nat && ascending (b :: ns)) = true).
  apply andb_true_intro. split.
  - rewrite (H a), (H b) by (repeat constructor). apply Nat.leb_refl.
  - apply IH. intros x Hx. apply H. by constructor.
Qed.

Lemma ascending_app_between m ns ms :
  (forall a, a ∈ ns -> (a <= m)%nat) ->
  (forall b, b ∈ ms -> (m <= b)%nat) ->
  ascending ns = true -> ascending ms = true -> ascending (ns ++ ms) = true.
Proof.
  intros Hns Hms. induction ns as [|a [|b ns] IH]; intros Ha Hb; [done|..].
  - destruct ms as [|c ms]; [done|]. simpl.
    assert (a <= m)%nat by (apply Hns; constructor).
    assert (m <= c)%nat by (apply Hms; constructor).
    apply andb_true_intro. split; [apply Nat.leb_le; lia|done].
  - change (((a <=? b)%nat && ascending ((b :: ns) ++ ms)) = true).
    simpl in Ha. apply andb_prop in Ha as [Hab Ha]. rewrite Hab. simpl.
    apply IH; [|done..]. intros x Hx. apply Hns. by constructor.
Qed.

Lemma code_position_cookies cookies n :
  n ∈ omap code_position (cookie_operations cookies) -> n = 1%nat.
Proof.
  intros (c & Hc & Hn)%list_elem_of_omap.
  apply cookie_operations_kind in Hc as [v ->]. simpl in Hn. congruence.
Qed.

Lemma code_position_wait r n :
  n ∈ omap code_position (wait_operations r) -> n = 3%nat.
Proof.
  intros (c & Hc & Hn)%list_elem_of_omap.
  apply wait_operations_kind in Hc as [-> _]. simpl in Hn. congruence.
Qed.

Lemma code_position_screenshot r n :
  n ∈ omap code_position (screenshot_operations r) -> n = 4%nat.
Proof.
  intros (c & Hc & Hn)%list_elem_of_omap.
  apply screenshot_operations_kind in Hc as ->. simpl in Hn. congruence.
Qed.

Lemma code_position_script r n :
  n ∈ omap code_position (script_operations r) -> n = 5%nat.
Proof.
  intros (c & Hc & Hn)%list_elem_of_omap.
  apply script_operations_kind in Hc as ->. simpl in Hn. congruence.
Qed.

(** The plan itself is in the order of the code. *)
Lemma driver_operations_in_order self r :
  in_order code_position (driver_operations self r) = true.
Proof.
  unfold in_order, driver_operations. rewrite !omap_app.
  change (omap code_position [SetPageLoadTimeout (page_load_timeout self r)])
    with [0%nat].
  change (omap code_position [Get (req_url r)]) with [2%nat].
  pose proof (code_position_cookies (req_cookies r)) as Hc.
  pose proof (code_position_wait r) as Hw.
  pose proof (code_position_screenshot r) as Hs.
  pose proof (code_position_script r) as Hx.
  apply (ascending_app_between 0);
    [intros a Ha; apply list_elem_of_singleton in Ha; lia
    |intros; lia|done|].
  apply (ascending_app_between 1).
  { intros a Ha. by rewrite (Hc a Ha). }
  { intros b Hb. repeat (apply elem_of_app in Hb as [Hb|Hb]).
    - apply list_elem_of_singleton in Hb. lia.
    - rewrite (Hw b Hb). lia.
    - rewrite (Hs b Hb). lia.
    - rewrite (Hx b Hb). lia. }
  { by apply (ascending_const 1). }
  apply (ascending_app_between 2).
  { intros a Ha. apply list_elem_of_singleton in Ha. lia. }
  { intros b Hb. repeat (apply elem_of_app in Hb as [Hb|Hb]).
    - rewrite (Hw b Hb). lia.
    - rewrite (Hs b Hb). lia.
    - rewrite (Hx b Hb). lia. }
  { done. }
  apply (ascending_app_between 3).
  { intros a Ha. by rewrite (Hw a Ha). }
  { intros b Hb. repeat (apply elem_of_app in Hb as [Hb|Hb]).
    - rewrite (Hs b Hb). lia.
    - rewrite (Hx b Hb). lia. }
  { by apply (ascending_const 3). }
  apply (ascending_app_between 4).
  { intros a Ha. by rewrite (Hs a Ha). }
  { intros b Hb. rewrite (Hx b Hb). lia. }
  { by apply (ascending_const 4). }
  by apply (ascending_const 5).
Qed.

(** * The claims *)

(** ** Order of the driver operations *)

(** C1, as amended.  For every [SeleniumRequest] the driver operations of
    [process_request] are a prefix of: set the page-load timeout, add each
    cookie, navigate, wait, take the screenshot, run the scripts; they are
    all of it when the method returns; so cookies are injected before the
    navigation and the screenshot is taken before the scripts run. *)
Theorem process_request_operations_in_code_order
    {B} (ext : Externals B) self r w :
  let run := process_request ext self (w, Selenium r) in
  calls_of (events run) `prefix_of`
    [SetPageLoadTimeout (page_load_timeout self r)]
    ++ cookie_operations (req_cookies r)
    ++ [Get (req_url r)]
    ++ wait_operations r
    ++ screenshot_operations r
    ++ script_operations r /\
  (forall response, result run = inr response ->
     calls_of (events run) = driver_operations self r) /\
  in_order code_position (calls_of (events run)) = true.
Proof.
  rewrite process_request_selenium.
  destruct (process_selenium_request_obeys ext self w r)
    as (d & _ & _ & _ & _ & _ & Hp & Hres).
  unfold_run.
  split; [exact Hp|]. split.
  - intros response Hr.
    destruct ((process_selenium_request ext self (w, r)).2); [done|].
    by destruct Hres.
  - eapply in_order_prefix; [exact Hp|]. apply driver_operations_in_order.
Qed.

(** The operations of the full request of the demonstration, served to
    the end. *)
Lemma process_request_operations_in_code_order_witness :
  calls_of (events (process_request Demo.ext Demo.mw
                      (Demo.w0, Selenium Demo.full_request)))
  = driver_operations Demo.mw Demo.full_request.
Proof.
  eapply (proj1 (proj2 (process_request_operations_in_code_order
                          Demo.ext Demo.mw Demo.full_request Demo.w0))).
  vm_compute. reflexivity.
Defined.

(** C1, as stated, fails: on the full request of the demonstration the
    cookie is added before the navigation and the screenshot is taken
    before the scripts run, against the listed order. *)
Lemma listed_order_counterexample :
  calls_of (events (process_request Demo.ext Demo.mw
                      (Demo.w0, Selenium Demo.full_request)))
  = [ SetPageLoadTimeout (VFloat 4640537203540230144);
      AddCookie Demo.session_cookie;
      Get "https://example.org/";
      WebDriverWaitUntil (VInt 10) (VCallable "presence_of_element_located");
      GetScreenshotAsPng;
      HandleSeleniumScripts
        (VList [VDict [(VStr "script", VStr "window.scrollTo(0, 0)")]]) ] /\
  in_order listed_position
    (calls_of (events (process_request Demo.ext Demo.mw
                         (Demo.w0, Selenium Demo.full_request)))) = false.
Proof. split; vm_compute; reflexivity. Qed.

(** ** Exceptions *)

Lemma filter_all {X} (f : X -> bool) (l : list X) :
  (forall x, x ∈ l -> f x = true) -> List.filter f l = l.
Proof.
  induction l as [|x l IH]; intros Hl; [done|]. simpl.
  rewrite (Hl x) by apply list_elem_of_here. f_equal.
  apply IH. intros y Hy. apply Hl. by apply list_elem_of_further.
Qed.

Ltac by_kind :=
  let c := fresh "c" in
  let Hc := fresh "Hc" in
  intros c Hc;
  first
    [ apply cookie_operations_kind in Hc as [? ->]
    | apply wait_operations_kind in Hc as [-> _]
    | apply screenshot_operations_kind in Hc as ->
    | apply script_operations_kind in Hc as -> ];
  reflexivity.

Lemma filter_get_plan self r :
  List.filter is_get (driver_operations self r) = [Get (req_url r)].
Proof.
  unfold driver_operations. rewrite !List.filter_app. simpl.
  rewrite !filter_none by by_kind. done.
Qed.

Lemma filter_wait_plan self r :
  List.filter is_wait (driver_operations self r) = wait_operations r.
Proof.
  unfold driver_operations. rewrite !List.filter_app. simpl.
  rewrite (filter_all is_wait (wait_operations r)) by by_kind.
  rewrite !filter_none by by_kind. by rewrite app_nil_r.
Qed.

Lemma filter_add_cookie_plan self r :
  List.filter is_add_cookie (driver_operations self r)
  = cookie_operations (req_cookies r).
Proof.
  unfold driver_operations. rewrite !List.filter_app. simpl.
  rewrite (filter_all is_add_cookie (cookie_operations _)) by by_kind.
  rewrite !filter_none by by_kind. by rewrite app_nil_r.
Qed.

(** An operation that raised is the last one of its run. *)
Lemma failed_event_last evs0 d c e d' c' e' :
  forallb succeeded evs0 = true ->
  DriverCalled d c (inl e) ∈ evs0 ++ [DriverCalled d' c' (inl e')] ->
  c = c' /\ e = e'.
Proof.
  intros Hs [Hin|Hin]%elem_of_app.
  - apply list_elem_of_In in Hin.
    by apply (proj1 (forallb_forall _ _) Hs) in Hin.
  - apply list_elem_of_singleton in Hin. by injection Hin as -> -> ->.
Qed.

Lemma no_failed_event evs d c e :
  forallb succeeded evs = true -> DriverCalled d c (inl e) ∈ evs -> False.
Proof.
  intros Hs Hin. apply list_elem_of_In in Hin.
  by apply (proj1 (forallb_forall _ _) Hs) in Hin.
Qed.

(** C2.  A [TimeoutException] raised by [driver.get] leaves
    [process_request] as [IgnoreRequest(TimeoutError(e, ...))]; [get] is
    called at most once, so nothing is retried; every other exception of
    a driver operation leaves the method as it was raised; and an
    exception that no driver operation raised comes from the interpreter. *)
Theorem navigation_timeout_is_the_only_remap
    {B} (ext : Externals B) self r w :
  let run := process_request ext self (w, Selenium r) in
  (length (List.filter is_get (calls_of (events run))) <= 1)%nat /\
  (forall d url msg,
     DriverCalled d (Get url) (inl (TimeoutException msg)) ∈ events run ->
     result run =
       inl (IgnoreRequest
              (TimeoutError (TimeoutException msg)
                 "scrapy-selenium : request timeout"))) /\
  (forall d c e,
     DriverCalled d c (inl e) ∈ events run ->
     is_get c = false \/ (forall msg, e <> TimeoutException msg) ->
     result run = inl e) /\
  (forall e,
     result run = inl e ->
     (exists d c e0, DriverCalled d c (inl e0) ∈ events run) \/
     interpreter_error e).
Proof.
  rewrite process_request_selenium.
  destruct (process_selenium_request_obeys ext self w r)
    as (d0 & _ & _ & _ & _ & _ & Hp & Hres).
  unfold_run.
  destruct (process_selenium_request ext self (w, r)) as [[evs s'] res].
  unfold_run.
  assert (Hfailed : forall d c e,
    DriverCalled d c (inl e) ∈ evs -> res = inl (surfaced c e)).
  { intros d c e Hin. destruct res as [e1|x].
    - destruct Hres as [(Hs & _)|(evs0 & c0 & e0 & -> & Hs & ->)].
      + destruct (no_failed_event _ _ _ _ Hs Hin).
      + by destruct (failed_event_last _ _ _ _ _ _ _ Hs Hin) as [-> ->].
    - destruct Hres as (_ & Hs & _).
      destruct (no_failed_event _ _ _ _ Hs Hin). }
  split_and!.
  - apply (filter_prefix is_get) in Hp. rewrite filter_get_plan in Hp.
    by apply prefix_length in Hp.
  - intros d url msg Hin. by rewrite (Hfailed _ _ _ Hin).
  - intros d c e Hin Hother. rewrite (Hfailed _ _ _ Hin).
    destruct Hother as [Hc|He].
    + by destruct c.
    + destruct c; try done. destruct e; try done. by destruct (He msg).
  - intros e He'. destruct res as [e1|x]; [|done]. injection He' as ->.
    destruct Hres as [(_ & He & _)|(evs0 & c0 & e0 & -> & _)].
    + by right.
    + left. exists d0, c0, e0. apply elem_of_app. right. constructor.
Qed.

(** A page that does not load in time, and a server that is down. *)
Lemma navigation_timeout_is_the_only_remap_witness :
  result (process_request Demo.ext Demo.mw
            (Demo.w0, Selenium (Demo.bare_request "https://slow.example/")))
  = inl (IgnoreRequest
           (TimeoutError
              (TimeoutException "timeout: Timed out receiving message")
              "scrapy-selenium : request timeout")) /\
  result (process_request Demo.ext Demo.mw
            (Demo.w0, Selenium (Demo.bare_request "https://down.example/")))
  = inl (WebDriverException "net::ERR_CONNECTION_REFUSED").
Proof.
  split.
  - eapply (proj1 (proj2 (navigation_timeout_is_the_only_remap Demo.ext
              Demo.mw (Demo.bare_request "https://slow.example/") Demo.w0))).
    vm_compute. right. left.
  - eapply (proj1 (proj2 (proj2 (navigation_timeout_is_the_only_remap
              Demo.ext Demo.mw (Demo.bare_request "https://down.example/")
              Demo.w0)))).
    + vm_compute. right. left.
    + right. intros msg. discriminate.
Defined.

(** ** Runs that reach the navigation *)

(** A run that called [driver.get] has set the timeout and added every
    cookie before. *)
Lemma calls_reaching_get self r calls url :
  calls `prefix_of` driver_operations self r ->
  Get url ∈ calls ->
  exists rest,
    calls = [SetPageLoadTimeout (page_load_timeout self r)]
              ++ cookie_operations (req_cookies r)
              ++ [Get (req_url r)] ++ rest /\
    rest `prefix_of`
      wait_operations r ++ screenshot_operations r ++ script_operations r.
Proof.
  unfold driver_operations. rewrite (assoc_L (++) [_]).
  intros Hp Hin.
  assert (Hnot : Get url ∉ [SetPageLoadTimeout (page_load_timeout self r)]
                             ++ cookie_operations (req_cookies r)).
  { intros [H|H]%elem_of_app.
    - by apply list_elem_of_singleton in H.
    - by apply cookie_operations_kind in H as [v ?]. }
  apply prefix_app_split in Hp as [Hp|(l' & -> & Hp)].
  - destruct Hp as [k Hk]. destruct Hnot. rewrite Hk.
    apply elem_of_app. by left.
  - destruct l' as [|c l'].
    + rewrite app_nil_r in Hin. by destruct Hnot.
    + apply prefix_cons_inv_1 in Hp as Hc. subst c.
      apply prefix_cons_inv_2 in Hp.
      exists l'. by rewrite <- (assoc_L (++) [_]).
Qed.

Section Reached.

Context {B : Type} (ext : Externals B).

(** When [driver.get] returned and [wait_until] is set, the wait was
    handed to the driver. *)
Lemma wait_follows_navigation self w r d v :
  truthy (req_wait_until r) = true ->
  DriverCalled d (Get (req_url r)) (inr v)
    ∈ events (process_selenium_request ext self (w, r)) ->
  WebDriverWaitUntil (req_wait_time r) (req_wait_until r)
    ∈ calls_of (events (process_selenium_request ext self (w, r))).
Proof.
  intros Hwu Hin.
  destruct (process_selenium_request_obeys ext self w r)
    as (d0 & Hd & _ & _ & _ & _ & Hp & Hres).
  destruct (process_selenium_request ext self (w, r)) as [[evs s'] res].
  unfold_run.
  pose proof (calls_of_elem _ _ _ _ Hin) as Hget.
  destruct (calls_reaching_get _ _ _ _ Hp Hget) as (rest & Hcalls & Hrest).
  unfold wait_operations in Hrest. rewrite Hwu in Hrest.
  destruct rest as [|c rest].
  - (* the run stopped at [get]: it cannot have returned *)
    exfalso.
    assert (Hplan : calls_of evs <> driver_operations self r).
    { rewrite Hcalls. unfold driver_operations, wait_operations.
      rewrite Hwu. intros Heq.
      apply (f_equal length) in Heq. rewrite !length_app in Heq.
      simpl in Heq. lia. }
    destruct res as [e|x].
    + destruct Hres as [(_ & _ & Hbrk)|(evs0 & c0 & e0 & -> & Hs & _)].
      * destruct (mw_driver self).
        -- unfold interpreter_break in Hbrk.
           destruct (cookie_break _); [|destruct (script_break r)];
             [| |done].
           ++ injection Hbrk as Hbrk. rewrite <- Hbrk in Hget.
              by apply list_elem_of_singleton in Hget.
           ++ injection Hbrk as Hbrk. by destruct Hplan.
        -- injection Hbrk as Hbrk. rewrite <- Hbrk in Hget.
           by apply elem_of_nil in Hget.
      * rewrite calls_of_app in Hcalls.
        change (calls_of [DriverCalled d0 c0 (inl e0)]) with [c0] in Hcalls.
        rewrite app_nil_r, (assoc_L (++) [_]) in Hcalls.
        apply app_inj_tail in Hcalls as [Hcalls _].
        apply elem_of_app in Hin as [Hin|Hin].
        -- apply calls_of_elem in Hin. rewrite Hcalls in Hin.
           apply elem_of_app in Hin as [Hin|Hin].
           ++ by apply list_elem_of_singleton in Hin.
           ++ by apply cookie_operations_kind in Hin as [? ?].
        -- by apply list_elem_of_singleton in Hin.
    + by destruct Hres as (? & _).
  - apply prefix_cons_inv_1 in Hrest as ->.
    rewrite Hcalls. rewrite !elem_of_app. right. right. right.
    apply list_elem_of_here.
Qed.

End Reached.

(** ** The response *)

(** C4.  When [process_request] returns for a [SeleniumRequest], it
    returns a response, never [None]: the one [generate_scrapy_response]
    builds from the request and from the browser as it is after every
    driver operation of the request, in order. *)
Theorem process_request_returns_response
    {B} (ext : Externals B) self r w resp :
  let run := process_request ext self (w, Selenium r) in
  result run = inr resp ->
  exists d r' response,
    mw_driver self = Some d /\
    (state run).2 = Selenium r' /\
    resp = Some response /\
    response = generate_scrapy_response ext d r' (state run).1 /\
    resp_url response = current_url ext (w_browser (state run).1 d) /\
    resp_body response = page_source ext (w_browser (state run).1 d) /\
    resp_request response = r' /\
    calls_of (events run) = driver_operations self r /\
    w_browser (state run).1 d
      = (replay ext d (driver_operations self r) (w_browser w d)).2.
Proof.
  rewrite process_request_selenium. cbv zeta. intros Hret.
  destruct (mw_driver self) as [d|] eqn:Hd.
  - pose proof (governed_process_selenium_request ext self d Hd w r)
      as (_ & _ & _ & Hr & _ & Hres).
    pose proof (process_selenium_request_returns ext self d w r) as Hresp.
    destruct (process_selenium_request ext self (w, r))
      as [[evs [w' r']] [e|response]]; project_run; [done|].
    injection Hret as <-. destruct Hres as (Hcalls & _).
    exists d, r', response.
    rewrite (Hresp response Hd eq_refl).
    split_and!; [done..|]. by rewrite <- Hcalls, Hr.
  - rewrite process_selenium_request_no_driver in Hret by done. done.
Qed.

Lemma process_request_returns_response_witness :
  exists d r' response,
    mw_driver Demo.mw = Some d /\
    (state (process_request Demo.ext Demo.mw
              (Demo.w0, Selenium Demo.full_request))).2 = Selenium r' /\
    resp_url response = "https://example.org/" /\
    resp_body response = "<html>https://example.org/</html>".
Proof.
  destruct (process_request_returns_response Demo.ext Demo.mw
              Demo.full_request Demo.w0
              (Some {| resp_url := "https://example.org/";
                       resp_body := "<html>https://example.org/</html>";
                       resp_request :=
                         set_meta Demo.full_request "screenshot"
                           Demo.png_magic |}))
    as (d & r' & response & Hd & Hr' & Hresp & _ & Hurl & Hbody & _).
  { vm_compute. reflexivity. }
  exists d, r', response. split_and!; [done..| |].
  - by injection Hresp as <-.
  - by injection Hresp as <-.
Defined.

(** ** Waiting *)

Lemma filter_elem {X} (f : X -> bool) (l : list X) x :
  x ∈ l -> f x = true -> List.filter f l <> [].
Proof.
  intros Hin Hf Hnil. apply list_elem_of_In in Hin.
  assert (In x (List.filter f l)) as Hx by (by apply List.filter_In).
  by rewrite Hnil in Hx.
Qed.

(** C5.  The middleware hands the wait to [WebDriverWait(driver,
    wait_time).until(wait_until)] and takes what it answers: with a falsy
    [wait_until] no wait is among the operations; with a truthy one the
    only wait there can be is that one, and there is one once
    [driver.get] has returned; the outcome of every operation is the
    driver's. *)
Theorem wait_is_delegated_to_the_driver {B} (ext : Externals B) self r w :
  let run := process_request ext self (w, Selenium r) in
  (truthy (req_wait_until r) = false ->
     List.filter is_wait (calls_of (events run)) = []) /\
  (truthy (req_wait_until r) = true ->
     List.filter is_wait (calls_of (events run)) `prefix_of`
       [WebDriverWaitUntil (req_wait_time r) (req_wait_until r)]) /\
  (truthy (req_wait_until r) = true ->
     forall d v,
       DriverCalled d (Get (req_url r)) (inr v) ∈ events run ->
       List.filter is_wait (calls_of (events run))
       = [WebDriverWaitUntil (req_wait_time r) (req_wait_until r)]) /\
  (forall d,
     mw_driver self = Some d ->
     (replay ext d (calls_of (events run)) (w_browser w d)).1 = events run).
Proof.
  rewrite process_request_selenium. cbv zeta.
  change (events (?a, ?b, ?c)) with a.
  destruct (process_selenium_request_obeys ext self w r)
    as (d0 & _ & _ & _ & _ & _ & Hp & _).
  apply (filter_prefix is_wait) in Hp. rewrite filter_wait_plan in Hp.
  assert (Hsome : truthy (req_wait_until r) = true ->
    List.filter is_wait
      (calls_of (events (process_selenium_request ext self (w, r))))
    `prefix_of` [WebDriverWaitUntil (req_wait_time r) (req_wait_until r)]).
  { intros Hwu. unfold wait_operations in Hp. by rewrite Hwu in Hp. }
  split_and!.
  - intros Hwu. unfold wait_operations in Hp. rewrite Hwu in Hp.
    by apply prefix_nil_inv in Hp.
  - exact Hsome.
  - intros Hwu d v Hin.
    pose proof (wait_follows_navigation ext self w r d v Hwu Hin) as Hw.
    apply (filter_elem is_wait) in Hw; [|done].
    specialize (Hsome Hwu).
    destruct (List.filter is_wait _) as [|c l]; [done|].
    apply prefix_cons_inv_1 in Hsome as Hc. subst c.
    apply prefix_cons_inv_2, prefix_nil_inv in Hsome. by subst l.
  - intros d Hd.
    pose proof (governed_process_selenium_request ext self d Hd w r)
      as (_ & _ & _ & Hr & _). by rewrite Hr.
Qed.

Lemma wait_is_delegated_to_the_driver_witness :
  List.filter is_wait
    (calls_of (events (process_request Demo.ext Demo.mw
                         (Demo.w0, Selenium Demo.full_request))))
  = [WebDriverWaitUntil (VInt 10) (VCallable "presence_of_element_located")]
  /\
  List.filter is_wait
    (calls_of (events (process_request Demo.ext Demo.mw
       (Demo.w0, Selenium (Demo.bare_request "https://example.org/")))))
  = [].
Proof.
  split.
  - eapply (proj1 (proj2 (proj2 (wait_is_delegated_to_the_driver Demo.ext
              Demo.mw Demo.full_request Demo.w0))) eq_refl 0%nat VNone).
    vm_compute. right. right. left.
  - exact (proj1 (wait_is_delegated_to_the_driver Demo.ext Demo.mw
                    (Demo.bare_request "https://example.org/") Demo.w0)
             eq_refl).
Defined.

(** ** The screenshot *)

(** C6.  Lines 155-156 write nothing of the request but
    [meta['screenshot']]: with a truthy flag, once the driver has returned
    the PNG bytes they are stored under that key, every other key of
    [meta] and every other attribute staying as it was, and when the
    driver raises the request is as it was; with a falsy flag the step
    does nothing. *)
Theorem screenshot_changes_only_meta {B} (ext : Externals B) self r w :
  let run := screenshot_step ext self (w, r) in
  (truthy (req_screenshot r) = true ->
     forall u, result run = inr u ->
     exists d png,
       mw_driver self = Some d /\
       events run = [DriverCalled d GetScreenshotAsPng (inr png)] /\
       (driver_step ext GetScreenshotAsPng (w_browser w d)).2 = inr png /\
       req_meta (state run).2 = <["screenshot" := png]> (req_meta r) /\
       (state run).2 = set_meta r "screenshot" png) /\
  (truthy (req_screenshot r) = true ->
     forall e, result run = inl e -> (state run).2 = r) /\
  (truthy (req_screenshot r) = false -> run = ([], (w, r), inr tt)) /\
  req_url (state run).2 = req_url r /\
  req_cookies (state run).2 = req_cookies r /\
  req_timeout (state run).2 = req_timeout r /\
  req_wait_time (state run).2 = req_wait_time r /\
  req_wait_until (state run).2 = req_wait_until r /\
  req_screenshot (state run).2 = req_screenshot r /\
  req_script_dict_list (state run).2 = req_script_dict_list r /\
  (forall key : string, key <> "screenshot" ->
     req_meta (state run).2 !! key = req_meta r !! key).
Proof.
  unfold screenshot_step. rewrite bind_the_request. cbn [snd]. cbv zeta.
  destruct (truthy (req_screenshot r)).
  - unfold self_driver. destruct (mw_driver self) as [d|].
    + rewrite bind_ret_l. unfold bind, lift, call, meta_setitem. cbn [fst snd].
      destruct (driver_step ext GetScreenshotAsPng (w_browser w d))
        as [b' [e|png]] eqn:Hstep; project_run.
      * split_and!; try done.
      * split_and!; try done.
        -- intros _ u _. exists d, png. by rewrite Hstep.
        -- intros key Hk. simpl. by rewrite lookup_insert_ne.
    + unfold bind, raise. project_run. split_and!; done.
  - unfold ret. project_run. split_and!; done.
Qed.

Lemma screenshot_changes_only_meta_witness :
  req_meta (state (screenshot_step Demo.ext Demo.mw
                     (Demo.w0, Demo.full_request))).2 !! "screenshot"
  = Some Demo.png_magic.
Proof.
  destruct (proj1 (screenshot_changes_only_meta Demo.ext Demo.mw
                     Demo.full_request Demo.w0) eq_refl tt eq_refl)
    as (d & png & Hd & _ & Hpng & Hmeta & _).
  injection Hd as <-. injection Hpng as <-.
  rewrite Hmeta. apply lookup_insert_eq.
Defined.

(** ** Cookies given as a dict *)

(** C8.  A dict has [__iter__], so for a request whose [cookies] is a dict
    lines 129-133 run, never lines 135-141: the loop is over the keys of
    the dict, the cookies handed to [driver.add_cookie] are keys of the
    dict, in order, and they are all its keys once the method gets to
    [driver.get]. *)
Theorem dict_cookies_pass_their_keys
    {B} (ext : Externals B) self r w kvs :
  req_cookies r = VDict kvs ->
  let run := process_request ext self (w, Selenium r) in
  has_iter (req_cookies r) = true /\
  cookies_step ext self (w, r)
  = for_each (map fst kvs) (fun cookie =>
      let! driver := self_driver self in
      lift (call ext driver (AddCookie cookie));;
      ret tt) (w, r) /\
  List.filter is_add_cookie (calls_of (events run))
    `prefix_of` map AddCookie (map fst kvs) /\
  (forall url, Get url ∈ calls_of (events run) ->
     List.filter is_add_cookie (calls_of (events run))
     = map AddCookie (map fst kvs)).
Proof.
  intros Hc. cbv zeta. rewrite process_request_selenium. cbv zeta.
  change (events (?a, ?b, ?c)) with a.
  destruct (process_selenium_request_obeys ext self w r)
    as (d0 & _ & _ & _ & _ & _ & Hp & _).
  assert (Hops : cookie_operations (req_cookies r)
                 = map AddCookie (map fst kvs)) by (by rewrite Hc).
  split_and!.
  - by rewrite Hc.
  - unfold cookies_step. rewrite bind_the_request. cbn [snd]. by rewrite Hc.
  - apply (filter_prefix is_add_cookie) in Hp.
    by rewrite filter_add_cookie_plan, Hops in Hp.
  - intros url Hget.
    destruct (calls_reaching_get _ _ _ _ Hp Hget) as (rest & -> & Hrest).
    rewrite !List.filter_app. simpl.
    rewrite (filter_all is_add_cookie (cookie_operations _)) by by_kind.
    apply (filter_prefix is_add_cookie) in Hrest.
    rewrite !List.filter_app in Hrest.
    rewrite (filter_none _ (wait_operations r)),
      (filter_none _ (screenshot_operations r)),
      (filter_none _ (script_operations r)) in Hrest by by_kind.
    apply prefix_nil_inv in Hrest. by rewrite Hrest, app_nil_r.
Qed.

(** With [cookies={'session': 'abc'}] the driver is handed the string
    ['session']. *)
Lemma dict_cookies_pass_their_keys_witness :
  List.filter is_add_cookie
    (calls_of (events (process_request Demo.ext Demo.mw
                         (Demo.w0, Selenium Demo.dict_cookie_request))))
  `prefix_of` [AddCookie (VStr "session")].
Proof.
  exact (proj1 (proj2 (proj2 (dict_cookies_pass_their_keys Demo.ext Demo.mw
           Demo.dict_cookie_request Demo.w0 [(VStr "session", VStr "abc")]
           eq_refl)))).
Defined.

(** ** Other requests *)

(** C9.  For a request that is not a [SeleniumRequest], [process_request]
    returns [None]; no driver operation is performed and the world and
    the request are as they were. *)
Theorem process_request_ignores_other_requests
    {B} (ext : Externals B) self w url cookies meta :
  process_request ext self (w, PlainRequest url cookies meta)
  = ([], (w, PlainRequest url cookies meta), inr None).
Proof. reflexivity. Qed.

(** ** Construction *)

Section Construction.

Context {B : Type} (ext : Externals B).

(** [__init__] starts at most one driver, as its last effect: when it
    raises, none was started. *)
Lemma init_run name path browser executor args timeout w :
  let run := __init__ ext name path browser executor args timeout w in
  match result run with
  | inl _ => events run = [] /\ state run = w
  | inr self =>
      mw_timeout self = timeout /\
      ((exists spec,
          events run = [DriverCreated (w_next w) spec] /\
          mw_driver self = Some (w_next w) /\
          w_next (state run) = S (w_next w)) \/
       (is_None path = true /\ is_None executor = true /\
        events run = [] /\ mw_driver self = None /\ state run = w))
  end.
Proof.
  unfold __init__, bind, do_import, from_sum, raise, ret, new_driver.
  repeat (case_match; simplify_eq/=; unfold_run; try done);
    try (split; [done|]);
    try (left; eexists; split_and!; done);
    repeat match goal with
           | H : negb _ = false |- _ => apply negb_false_iff in H
           end;
    right; split_and!; done.
Qed.

Lemma spider_closed_run self d w :
  mw_driver self = Some d ->
  exists out,
    events (spider_closed ext self w) = [DriverCalled d QuitDriver out].
Proof.
  intros Hd. unfold spider_closed, self_driver. rewrite Hd, bind_ret_l.
  unfold bind, call, ret.
  destruct (driver_step ext QuitDriver (w_browser w d)) as [b' [e|v]];
    unfold_run; by eexists.
Qed.

Lemma send_spider_closed_app receivers receivers' w :
  (send_spider_closed ext (receivers ++ receivers') w).1
  = (send_spider_closed ext receivers w).1
    ++ (send_spider_closed ext receivers'
          (send_spider_closed ext receivers w).2).1.
Proof.
  revert w. induction receivers as [|[[self|name] [|]] receivers IH];
    intros w; simpl; auto.
  destruct (spider_closed ext self w) as [[evs w'] res].
  specialize (IH w').
  destruct (send_spider_closed ext (receivers ++ receivers') w')
    as [evs2 w2].
  destruct (send_spider_closed ext receivers w') as [evs1 w1].
  simpl in *. by rewrite IH, (assoc_L (++)).
Qed.

Lemma send_spider_closed_fresh crawler w :
  fresh crawler = true ->
  send_spider_closed ext (signals crawler) w = ([], w).
Proof.
  unfold fresh. induction (signals crawler) as [|[[self|name] sig] l IH];
    simpl; [done..|].
  intros H. rewrite IH by done. by destruct sig.
Qed.

Lemma replay_events d cs b ev :
  ev ∈ (replay ext d cs b).1 ->
  exists c out, ev = DriverCalled d c out /\ c ∈ cs.
Proof.
  revert b. induction cs as [|c cs IH]; intros b; simpl.
  - by intros ?%elem_of_nil.
  - destruct (driver_step ext c b) as [b' out].
    destruct (replay ext d cs b') as [evs b''] eqn:Hrep. simpl.
    intros [->|Hin]%elem_of_cons.
    + exists c, out. split; [done|constructor].
    + specialize (IH b'). rewrite Hrep in IH.
      destruct (IH Hin) as (c' & out' & -> & Hc').
      exists c', out'. split; [done|by constructor].
Qed.

Lemma driver_operations_no_quit self r c :
  c ∈ driver_operations self r -> is_quit c = false.
Proof.
  unfold driver_operations. rewrite !elem_of_app.
  intros [H|[H|[H|[H|[H|H]]]]].
  - by apply list_elem_of_singleton in H as ->.
  - by apply cookie_operations_kind in H as [v ->].
  - by apply list_elem_of_singleton in H as ->.
  - by apply wait_operations_kind in H as [-> _].
  - by apply screenshot_operations_kind in H as ->.
  - by apply script_operations_kind in H as ->.
Qed.

(** [process_request] uses the driver of the middleware and does not
    quit it. *)
Lemma process_request_uses_driver self d s :
  mw_driver self = Some d ->
  forallb (is_use_of d) (events (process_request ext self s)) = true.
Proof.
  intros Hd. destruct s as [w [url cookies meta|r]]; [done|].
  rewrite process_request_selenium. cbv zeta.
  change (events (?a, ?b, ?c)) with a.
  pose proof (governed_process_selenium_request ext self d Hd w r)
    as (_ & _ & _ & Hr & Hp & _).
  apply forallb_forall. intros ev Hin. apply list_elem_of_In in Hin.
  apply (f_equal fst) in Hr. simpl in Hr. rewrite <- Hr in Hin.
  apply replay_events in Hin as (c & out & -> & Hc).
  simpl. rewrite bool_decide_eq_true_2 by done.
  destruct Hp as [k Hk]. erewrite driver_operations_no_quit; [done|].
  rewrite Hk. apply elem_of_app. by left.
Qed.

Lemma download_uses_driver self d requests w :
  mw_driver self = Some d ->
  forallb (is_use_of d) (download ext self requests w).1.1 = true.
Proof.
  intros Hd. revert w. induction requests as [|request requests IH];
    intros w; [done|]. simpl.
  pose proof (process_request_uses_driver self d (w, request) Hd) as H.
  destruct (process_request ext self (w, request)) as [[evs s'] res].
  specialize (IH s'.1).
  destruct (download ext self requests s'.1) as [[evs' w'] done'].
  unfold_run. by rewrite forallb_app, H, IH.
Qed.

End Construction.

(** ** from_crawler *)

Lemma bind_get_state {S C} (k : S -> Py S C) s :
  bind get_state k s = k s s.
Proof. unfold bind, get_state. by destruct (k s s) as [[evs s'] res]. Qed.

Section FromCrawler.

Context {B : Type} (ext : Externals B).

(** [from_crawler] once [DOWNLOAD_TIMEOUT] is read and both tests of
    lines 91 and 94 are passed. *)
Lemma from_crawler_builds w crawler timeout :
  let st := settings crawler in
  settings_getfloat ext st "DOWNLOAD_TIMEOUT" = inr timeout ->
  unset st "SELENIUM_DRIVER_NAME" = false ->
  unset st "SELENIUM_DRIVER_EXECUTABLE_PATH"
    && unset st "SELENIUM_COMMAND_EXECUTOR" = false ->
  let built :=
    __init__ ext
      (settings_get st "SELENIUM_DRIVER_NAME" VNone)
      (settings_get st "SELENIUM_DRIVER_EXECUTABLE_PATH" VNone)
      (settings_get st "SELENIUM_BROWSER_EXECUTABLE_PATH" VNone)
      (settings_get st "SELENIUM_COMMAND_EXECUTOR" VNone)
      (settings_get st "SELENIUM_DRIVER_ARGUMENTS" VNone)
      timeout w in
  from_crawler ext (w, crawler) =
  match result built with
  | inr middleware =>
      (events built, (state built, connected crawler middleware),
       inr middleware)
  | inl e => (events built, (state built, crawler), inl e)
  end.
Proof.
  intros st Hfloat Hname Hpaths built. subst st built.
  unfold from_crawler, unset in *. rewrite bind_get_state. cbn [snd].
  rewrite Hfloat, bind_from_sum_inr, Hname, Hpaths.
  unfold bind at 1. unfold lift at 1. cbn [fst snd].
  destruct (__init__ _ _ _ _ _ _ _ _) as [[evs w'] [e|m]]; project_run;
    [done|].
  unfold bind, signals_connect, ret, connected. cbn [fst snd].
  by rewrite !app_nil_r.
Qed.

Lemma from_crawler_run w crawler :
  let run := from_crawler ext (w, crawler) in
  match result run with
  | inl _ => events run = []
  | inr self =>
      exists spec,
        events run = [DriverCreated (w_next w) spec] /\
        mw_driver self = Some (w_next w) /\
        (state run).2 = connected crawler self
  end.
Proof.
  cbv zeta.
  destruct (settings_getfloat ext (settings crawler) "DOWNLOAD_TIMEOUT")
    as [e|timeout] eqn:Hfloat.
  { unfold from_crawler. rewrite bind_get_state. cbn [snd].
    by rewrite Hfloat. }
  destruct (unset (settings crawler) "SELENIUM_DRIVER_NAME") eqn:Hname.
  { unfold from_crawler, unset in *. rewrite bind_get_state. cbn [snd].
    by rewrite Hfloat, bind_from_sum_inr, Hname. }
  destruct (unset (settings crawler) "SELENIUM_DRIVER_EXECUTABLE_PATH"
            && unset (settings crawler) "SELENIUM_COMMAND_EXECUTOR")
    eqn:Hpaths.
  { unfold from_crawler, unset in *. rewrite bind_get_state. cbn [snd].
    by rewrite Hfloat, bind_from_sum_inr, Hname, Hpaths. }
  rewrite (from_crawler_builds w crawler timeout Hfloat Hname Hpaths).
  match goal with |- context [__init__ ext ?a1 ?a2 ?a3 ?a4 ?a5 ?a6 ?a7] =>
    pose proof (init_run ext a1 a2 a3 a4 a5 a6 a7) as Hinit;
    destruct (__init__ ext a1 a2 a3 a4 a5 a6 a7) as [[evs w'] [e|m]]
  end; project_run.
  - by destruct Hinit.
  - destruct Hinit as [_ [(spec & -> & Hd & _)|(Hp & He & _)]].
    + by exists spec.
    + unfold unset in Hpaths. by rewrite Hp, He in Hpaths.
Qed.

End FromCrawler.

(** C7, as amended.  Once [DOWNLOAD_TIMEOUT] has been read as a float,
    [from_crawler] raises [NotConfigured] when [SELENIUM_DRIVER_NAME] is
    unset and when both [SELENIUM_DRIVER_EXECUTABLE_PATH] and
    [SELENIUM_COMMAND_EXECUTOR] are unset, touching nothing; in every
    other case it runs the constructor, and when the constructor returns
    an instance it connects its [spider_closed] to the signal and returns
    it, while an exception of the constructor leaves [from_crawler] as it
    is, nothing connected. *)
Theorem from_crawler_not_configured {B} (ext : Externals B) w crawler timeout :
  let st := settings crawler in
  settings_getfloat ext st "DOWNLOAD_TIMEOUT" = inr timeout ->
  let run := from_crawler ext (w, crawler) in
  (unset st "SELENIUM_DRIVER_NAME" = true ->
     run = ([], (w, crawler),
            inl (NotConfigured "SELENIUM_DRIVER_NAME must be set"))) /\
  (unset st "SELENIUM_DRIVER_NAME" = false ->
   unset st "SELENIUM_DRIVER_EXECUTABLE_PATH" = true ->
   unset st "SELENIUM_COMMAND_EXECUTOR" = true ->
     run = ([], (w, crawler),
            inl (NotConfigured
                   ("Either SELENIUM_DRIVER_EXECUTABLE_PATH "
                    ++ "or SELENIUM_COMMAND_EXECUTOR must be set")%string))) /\
  (unset st "SELENIUM_DRIVER_NAME" = false ->
   unset st "SELENIUM_DRIVER_EXECUTABLE_PATH"
     && unset st "SELENIUM_COMMAND_EXECUTOR" = false ->
     let built :=
       __init__ ext
         (settings_get st "SELENIUM_DRIVER_NAME" VNone)
         (settings_get st "SELENIUM_DRIVER_EXECUTABLE_PATH" VNone)
         (settings_get st "SELENIUM_BROWSER_EXECUTABLE_PATH" VNone)
         (settings_get st "SELENIUM_COMMAND_EXECUTOR" VNone)
         (settings_get st "SELENIUM_DRIVER_ARGUMENTS" VNone)
         timeout w in
     events run = events built /\
     (state run).1 = state built /\
     match result built with
     | inr middleware =>
         result run = inr middleware /\
         (state run).2 = connected crawler middleware
     | inl e => result run = inl e /\ (state run).2 = crawler
     end).
Proof.
  intros st Hfloat run. subst st run. split_and!.
  - intros Hname. unfold from_crawler, unset in *.
    rewrite bind_get_state. cbn [snd].
    by rewrite Hfloat, bind_from_sum_inr, Hname.
  - intros Hname Hpath Hexec. unfold from_crawler, unset in *.
    rewrite bind_get_state. cbn [snd].
    by rewrite Hfloat, bind_from_sum_inr, Hname, Hpath, Hexec.
  - intros Hname Hpaths built.
    rewrite (from_crawler_builds ext w crawler timeout Hfloat Hname Hpaths).
    fold built. by destruct (result built).
Qed.

(** The configured project of the demonstration gets its middleware. *)
Lemma from_crawler_not_configured_witness :
  result (from_crawler Demo.ext (Demo.w0, Demo.crawler0)) = inr Demo.mw /\
  (state (from_crawler Demo.ext (Demo.w0, Demo.crawler0))).2
  = connected Demo.crawler0 Demo.mw.
Proof.
  exact (proj2 (proj2 (proj2 (proj2
    (from_crawler_not_configured Demo.ext Demo.w0 Demo.crawler0
       (VFloat 4640537203540230144) eq_refl)) eq_refl eq_refl))).
Defined.

(** C7, as stated, fails.  With a driver name and a driver path set but
    no [SELENIUM_DRIVER_ARGUMENTS], [from_crawler] raises [TypeError]:
    neither [NotConfigured] nor an instance.  With no driver name and a
    [DOWNLOAD_TIMEOUT] that is not a number it raises [ValueError], not
    [NotConfigured]. *)
Lemma from_crawler_counterexample :
  unset (settings Demo.crawler_without_arguments) "SELENIUM_DRIVER_NAME"
  = false /\
  unset (settings Demo.crawler_without_arguments)
    "SELENIUM_DRIVER_EXECUTABLE_PATH" = false /\
  from_crawler Demo.ext (Demo.w0, Demo.crawler_without_arguments)
  = ([], (Demo.w0, Demo.crawler_without_arguments),
     inl (TypeError "'NoneType' object is not iterable")) /\
  unset (settings Demo.crawler_with_bad_timeout) "SELENIUM_DRIVER_NAME"
  = true /\
  from_crawler Demo.ext (Demo.w0, Demo.crawler_with_bad_timeout)
  = ([], (Demo.w0, Demo.crawler_with_bad_timeout),
     inl (ValueError "could not convert string to float: 'fast'")).
Proof. split_and!; vm_compute; reflexivity. Qed.

(** ** One driver for a crawl *)

(** C3, as amended.  The driver is started by [from_crawler], when the
    middleware is built and before any request is seen, not on first
    use.  In a crawl whose middleware is built there is exactly one
    driver: it is created first, every driver operation of every
    [process_request] is on it and none quits it, and it is quit once,
    last, when the spider is closed.  When [from_crawler] raises, no
    driver is started. *)
Theorem one_driver_per_crawl {B} (ext : Externals B) crawler requests w :
  fresh crawler = true ->
  let built := from_crawler ext (w, crawler) in
  match result built with
  | inr self =>
      exists d spec out,
        mw_driver self = Some d /\
        events built = [DriverCreated d spec] /\
        forallb (is_use_of d)
          (download ext self requests (state built).1).1.1 = true /\
        crawl ext crawler requests w
        = [DriverCreated d spec]
            ++ (download ext self requests (state built).1).1.1
            ++ [DriverCalled d QuitDriver out]
  | inl _ => crawl ext crawler requests w = []
  end.
Proof.
  intros Hfresh built. subst built.
  pose proof (from_crawler_run ext w crawler) as Hrun. cbv zeta in Hrun.
  unfold crawl.
  destruct (from_crawler ext (w, crawler)) as [[evs0 [w1 crawler1]] [e|self]];
    project_run; [done|].
  destruct Hrun as (spec & -> & Hd & ->).
  pose proof (download_uses_driver ext self _ requests w1 Hd) as Huses.
  destruct (download ext self requests w1) as [[evs1 w2] done'].
  cbn [fst snd] in *.
  unfold connected. cbn [signals].
  rewrite send_spider_closed_app, send_spider_closed_fresh by done.
  cbn [fst snd app send_spider_closed].
  destruct (spider_closed_run ext self _ w2 Hd) as [out Hout].
  destruct (spider_closed ext self w2) as [[evs2 w3] res].
  unfold events in Hout. cbn [fst snd] in *. subst evs2.
  exists (w_next w), spec, out. by rewrite app_nil_r.
Qed.

Lemma one_driver_per_crawl_witness :
  exists d spec out,
    mw_driver Demo.mw = Some d /\
    crawl Demo.ext Demo.crawler0
      [Selenium Demo.full_request; Demo.plain_request;
       Selenium (Demo.bare_request "https://slow.example/")] Demo.w0
    = [DriverCreated d spec]
        ++ (download Demo.ext Demo.mw
              [Selenium Demo.full_request; Demo.plain_request;
               Selenium (Demo.bare_request "https://slow.example/")]
              (state (from_crawler Demo.ext (Demo.w0, Demo.crawler0))).1).1.1
        ++ [DriverCalled d QuitDriver out].
Proof.
  pose proof (one_driver_per_crawl Demo.ext Demo.crawler0
                [Selenium Demo.full_request; Demo.plain_request;
                 Selenium (Demo.bare_request "https://slow.example/")]
                Demo.w0 eq_refl) as H.
  cbv zeta in H.
  assert (Hres : result (from_crawler Demo.ext (Demo.w0, Demo.crawler0))
                 = inr Demo.mw) by (vm_compute; reflexivity).
  rewrite Hres in H. destruct H as (d & spec & out & Hd & _ & _ & Hcrawl).
  by exists d, spec, out.
Defined.

(** C3, as stated, fails on "lazily": building the middleware already
    starts the driver, and a crawl whose only request is not a
    [SeleniumRequest], so that no driver is ever needed, starts one and
    quits it. *)
Lemma driver_is_not_lazy_counterexample :
  events (from_crawler Demo.ext (Demo.w0, Demo.crawler0))
  = [DriverCreated 0%nat
       (LocalDriver "selenium.webdriver.firefox"
          (VStr "/usr/bin/geckodriver")
          {| binary_location := None; arguments := [VStr "-headless"] |})] /\
  crawl Demo.ext Demo.crawler0 [Demo.plain_request] Demo.w0
  = [DriverCreated 0%nat
       (LocalDriver "selenium.webdriver.firefox"
          (VStr "/usr/bin/geckodriver")
          {| binary_location := None; arguments := [VStr "-headless"] |});
     DriverCalled 0%nat QuitDriver (inr VNone)].
Proof. split; vm_compute; reflexivity. Qed.

(** * Further properties of the middleware *)

(** ** The request a run leaves *)

Section Tracks.

Context {B : Type} (ext : Externals B) (self : Middleware).

Lemma request_after_app r evs evs' :
  request_after r (evs ++ evs')
  = request_after (request_after r evs) evs'.
Proof. apply fold_left_app. Qed.

Lemma tracks_ret {A} (a : A) : tracks (B:=B) (ret a).
Proof. by intros w r. Qed.

Lemma tracks_raise {A} e : tracks (B:=B) (A:=A) (raise e).
Proof. by intros w r. Qed.

Lemma tracks_bind {A C} (c : Py (St (B:=B)) A) (k : A -> Py St C) :
  tracks c -> (forall a, tracks (k a)) -> tracks (bind c k).
Proof.
  intros Hc Hk w r. specialize (Hc w r). unfold bind.
  destruct (c (w, r)) as [[evs1 [w1 r1]] [e|a]]; project_run; [done|].
  specialize (Hk a w1 r1).
  destruct (k a (w1, r1)) as [[evs2 [w2 r2]] res]; project_run.
  by rewrite request_after_app, <- Hc.
Qed.

Lemma tracks_call {A} c (k : pyval -> Py (St (B:=B)) A) :
  is_screenshot c = false ->
  (forall v, tracks (k v)) ->
  tracks (let! driver := self_driver self in
          let! v := lift (call ext driver c) in k v).
Proof.
  intros Hc Hk. unfold self_driver. destruct (mw_driver self) as [d|].
  - intros w r. rewrite bind_ret_l. revert w r. apply tracks_bind; [|done].
    intros w r. unfold lift, call. cbn [fst snd].
    destruct (driver_step ext c (w_browser w d)) as [b' out].
    project_run. unfold request_after. simpl.
    by destruct c; simplify_eq/=.
  - by intros w r.
Qed.

Lemma tracks_for_each {X} (f : X -> pyval) (xs : list X) :
  tracks (for_each xs (fun x =>
            let! driver := self_driver self in
            lift (call ext driver (AddCookie (f x)));;
            ret tt)).
Proof.
  induction xs as [|x xs IH]; simpl; [apply tracks_ret|].
  apply tracks_bind; [|done].
  apply tracks_call; [done|]. intros _. apply tracks_ret.
Qed.

Lemma tracks_the_request {A} (k : SeleniumRequest -> Py (St (B:=B)) A) :
  (forall r, tracks (k r)) -> tracks (bind the_request k).
Proof. intros Hk w r. rewrite bind_the_request. apply Hk. Qed.

Lemma tracks_set_timeout_step : tracks (set_timeout_step ext self).
Proof.
  apply tracks_the_request. intros r.
  apply tracks_call; [done|]. intros _. apply tracks_ret.
Qed.

Lemma tracks_cookies_step : tracks (cookies_step ext self).
Proof.
  apply tracks_the_request. intros r.
  destruct (has_iter (req_cookies r)).
  - destruct (py_iter (req_cookies r)); [|apply tracks_ret].
    apply (tracks_for_each id).
  - destruct (py_items (req_cookies r)) as [items|]; [|apply tracks_raise].
    intros w r'. erewrite for_each_ext.
    + apply (tracks_for_each (fun kv : pyval * pyval =>
        VDict [(VStr "name", kv.1); (VStr "value", kv.2)])).
    + by intros [? ?] ?.
Qed.

Lemma tracks_navigate_step : tracks (navigate_step ext self).
Proof.
  apply tracks_the_request. intros r w r'.
  unfold try_except, self_driver. destruct (mw_driver self) as [d|].
  - rewrite bind_ret_l. unfold bind, lift, call, raise. cbn [fst snd].
    destruct (driver_step ext (Get (req_url r)) (w_browser w d))
      as [b' [e|v]]; [by destruct e|done].
  - unfold bind, raise. done.
Qed.

Lemma tracks_wait_step : tracks (wait_step ext self).
Proof.
  apply tracks_the_request. intros r.
  destruct (truthy (req_wait_until r)); [|apply tracks_ret].
  apply tracks_call; [done|]. intros _. apply tracks_ret.
Qed.

Lemma tracks_screenshot_step : tracks (screenshot_step ext self).
Proof.
  apply tracks_the_request. intros r.
  destruct (truthy (req_screenshot r)); [|apply tracks_ret].
  unfold self_driver. destruct (mw_driver self) as [d|].
  - intros w r'. rewrite bind_ret_l.
    unfold bind, lift, call, meta_setitem. cbn [fst snd].
    by destruct (driver_step ext GetScreenshotAsPng (w_browser w d))
      as [b' [e|png]].
  - by intros w r'.
Qed.

Lemma tracks_scripts_step : tracks (scripts_step ext self).
Proof.
  apply tracks_the_request. intros r.
  apply tracks_bind; [by intros w r'|]. intros [|]; [|apply tracks_ret].
  unfold self_driver. destruct (mw_driver self) as [d|].
  - intros w r'. rewrite bind_ret_l, lift_handle_selenium_scripts.
    revert w r'. apply tracks_bind; [|intros; apply tracks_ret].
    intros w r'. unfold lift, call. cbn [fst snd].
    by destruct (driver_step ext _ (w_browser w d)) as [b' out].
  - by intros w r'.
Qed.

Lemma tracks_response_step : tracks (response_step ext self).
Proof.
  unfold response_step.
  apply tracks_bind; [|by intros d w r].
  unfold self_driver. destruct (mw_driver self);
    [apply tracks_ret|apply tracks_raise].
Qed.

(** The request [process_request] leaves is the one it was given, with
    the bytes of a screenshot that returned stored in its [meta]. *)
Lemma tracks_process_selenium_request :
  tracks (process_selenium_request ext self).
Proof.
  unfold process_selenium_request.
  repeat (apply tracks_bind; [|intros _]).
  - apply tracks_set_timeout_step.
  - apply tracks_cookies_step.
  - apply tracks_navigate_step.
  - apply tracks_wait_step.
  - apply tracks_screenshot_step.
  - apply tracks_scripts_step.
  - apply tracks_response_step.
Qed.

End Tracks.

Lemma request_after_no_screenshot r evs :
  List.filter is_screenshot (calls_of evs) = [] -> request_after r evs = r.
Proof.
  revert r. induction evs as [|[d spec|d c out] evs IH]; intros r; [done|..].
  - apply IH.
  - unfold calls_of. simpl. fold (calls_of evs).
    destruct c; simpl; try apply IH. done.
Qed.

(** ** The page-load timeout *)

Lemma set_timeout_in_plan self r t :
  SetPageLoadTimeout t ∈ driver_operations self r ->
  t = page_load_timeout self r.
Proof.
  unfold driver_operations. rewrite !elem_of_app.
  intros [H|[H|[H|[H|[H|H]]]]].
  - apply list_elem_of_singleton in H. by injection H.
  - by apply cookie_operations_kind in H as [v ?].
  - by apply list_elem_of_singleton in H.
  - by apply wait_operations_kind in H as [? _].
  - by apply screenshot_operations_kind in H.
  - by apply script_operations_kind in H.
Qed.

(** X1.  The timeout [process_request] hands to
    [driver.set_page_load_timeout] is always an [int] or a [float]: the
    request's own when that is one, the middleware's when the request has
    [None] and the middleware's is one, and 30 in every other case, so
    also for a request timeout that is set but is no number, whatever
    the middleware's timeout is.  With a driver, setting it is the first
    operation of every run. *)
Theorem page_load_timeout_is_a_number {B} (ext : Externals B) self r w :
  let run := process_request ext self (w, Selenium r) in
  isinstance_int_float (page_load_timeout self r) = true /\
  (isinstance_int_float (req_timeout r) = true ->
     page_load_timeout self r = req_timeout r) /\
  (is_None (req_timeout r) = true ->
   isinstance_int_float (mw_timeout self) = true ->
     page_load_timeout self r = mw_timeout self) /\
  (is_None (req_timeout r) = true ->
   isinstance_int_float (mw_timeout self) = false ->
     page_load_timeout self r = VInt 30) /\
  (is_None (req_timeout r) = false ->
   isinstance_int_float (req_timeout r) = false ->
     page_load_timeout self r = VInt 30) /\
  (forall d t out,
     DriverCalled d (SetPageLoadTimeout t) out ∈ events run ->
     t = page_load_timeout self r) /\
  (forall d,
     mw_driver self = Some d ->
     exists out,
       head (events run)
       = Some (DriverCalled d
                 (SetPageLoadTimeout (page_load_timeout self r)) out)).
Proof.
  cbv zeta. split_and!.
  - unfold page_load_timeout.
    destruct (req_timeout r); simpl; try done;
      by destruct (isinstance_int_float (mw_timeout self)) eqn:H.
  - unfold page_load_timeout. intros H.
    destruct (req_timeout r); by simplify_eq/=.
  - unfold page_load_timeout. intros -> ->. done.
  - unfold page_load_timeout. intros -> ->. done.
  - unfold page_load_timeout. intros -> ->. done.
  - intros d t out Hin. rewrite process_request_selenium in Hin.
    cbv zeta in Hin. change (events (?a, ?b, ?c)) with a in Hin.
    destruct (process_selenium_request_obeys ext self w r)
      as (d0 & _ & _ & _ & _ & _ & [k Hk] & _).
    apply calls_of_elem in Hin. apply (set_timeout_in_plan self r).
    rewrite Hk. apply elem_of_app. by left.
  - intros d Hd. rewrite process_request_selenium. cbv zeta.
    change (events (?a, ?b, ?c)) with a.
    pose proof (governed_process_selenium_request ext self d Hd w r)
      as (_ & _ & _ & Hr & Hp & Hres).
    destruct (process_selenium_request ext self (w, r)) as [[evs s'] res].
    project_run.
    assert (Hne : calls_of evs <> []).
    { intros Hnil. destruct res as [e|x].
      - destruct Hres as [(_ & _ & Hbrk)|(evs0 & c & e0 & -> & _)].
        + rewrite Hnil in Hbrk. unfold interpreter_break in Hbrk.
          destruct (cookie_break _); [done|]. by destruct (script_break r).
        + rewrite calls_of_app in Hnil. by destruct (calls_of evs0).
      - destruct Hres as (Hc & _). by rewrite Hnil in Hc. }
    destruct (calls_of evs) as [|c cs]; [done|].
    apply prefix_cons_inv_1 in Hp. subst c. simpl in Hr.
    destruct (driver_step ext _ (w_browser w d)) as [b' out].
    destruct (replay ext d cs b') as [evs' b''].
    injection Hr as <- _. by exists out.
Qed.

Lemma page_load_timeout_is_a_number_witness :
  page_load_timeout Demo.mw Demo.odd_request = VInt 30 /\
  page_load_timeout Demo.mw Demo.full_request = mw_timeout Demo.mw.
Proof.
  split.
  - exact (proj1 (proj2 (proj2 (proj2 (proj2
      (page_load_timeout_is_a_number Demo.ext Demo.mw Demo.odd_request
         Demo.w0))))) eq_refl eq_refl).
  - exact (proj1 (proj2 (proj2
      (page_load_timeout_is_a_number Demo.ext Demo.mw Demo.full_request
         Demo.w0))) eq_refl eq_refl).
Defined.

(** ** The script list *)




(** ** Cookies *)

Section Cookies.

Context {B : Type} (ext : Externals B).

Lemma set_timeout_step_keeps_request self w r :
  (state (set_timeout_step ext self (w, r))).2 = r.
Proof.
  rewrite (tracks_set_timeout_step ext self w r).
  apply request_after_no_screenshot.
  unfold set_timeout_step. rewrite bind_the_request. cbn [snd].
  unfold self_driver. destruct (mw_driver self) as [d|]; [|done].
  rewrite bind_ret_l. unfold bind, lift, call. cbn [fst snd].
  by destruct (driver_step ext _ (w_browser w d)) as [b' [e|v]].
Qed.

(** With cookies that have neither [__iter__] nor [items] the method ends
    in line 135. *)
Lemma process_selenium_request_bad_cookies self w r :
  has_iter (req_cookies r) = false ->
  py_items (req_cookies r) = None ->
  process_selenium_request ext self (w, r) =
  let run := set_timeout_step ext self (w, r) in
  let res : Exn + Response :=
    match result run with
    | inl e => inl e
    | inr _ =>
        inl (AttributeError
               ("'" ++ type_name (req_cookies r)
                    ++ "' object has no attribute 'items'")%string)
    end in
  (events run, state run, res).
Proof.
  intros Hiter Hitems. unfold process_selenium_request. unfold bind at 1.
  pose proof (set_timeout_step_keeps_request self w r) as Hkeep.
  destruct (set_timeout_step ext self (w, r)) as [[evs [w1 r1]] [e|u]];
    project_run; [done|]. subst r1.
  unfold bind at 1. unfold cookies_step. rewrite bind_the_request.
  cbn [snd]. rewrite Hiter, Hitems. unfold raise. by rewrite app_nil_r.
Qed.

End Cookies.

(** X3.  A request whose [cookies] has neither [__iter__] nor an [items]
    method (such as [None]) is never navigated to: [process_request]
    raises, the only driver operation it can have performed is setting
    the page-load timeout, the request is left as it was, and once the
    timeout is set the exception is the [AttributeError] of line 135. *)
Theorem cookies_without_iter_or_items_end_the_request
    {B} (ext : Externals B) self r w :
  has_iter (req_cookies r) = false ->
  py_items (req_cookies r) = None ->
  let run := process_request ext self (w, Selenium r) in
  calls_of (events run)
    `prefix_of` [SetPageLoadTimeout (page_load_timeout self r)] /\
  (state run).2 = Selenium r /\
  (exists e, result run = inl e) /\
  (forall d v,
     events run
     = [DriverCalled d (SetPageLoadTimeout (page_load_timeout self r))
          (inr v)] ->
     result run
     = inl (AttributeError
              ("'" ++ type_name (req_cookies r)
                   ++ "' object has no attribute 'items'")%string)).
Proof.
  intros Hiter Hitems. cbv zeta.
  rewrite process_request_selenium,
    (process_selenium_request_bad_cookies ext self w r Hiter Hitems).
  cbv zeta. project_run.
  pose proof (set_timeout_step_keeps_request ext self w r) as Hkeep.
  destruct (mw_driver self) as [d|] eqn:Hd.
  - pose proof (governed_set_timeout_step ext self d Hd w r)
      as (_ & _ & _ & _ & Hp & Hres).
    destruct (set_timeout_step ext self (w, r)) as [[evs [w1 r1]] [e|u]];
      project_run; subst r1; split_and!; try done; try by eexists.
    intros d' v ->. destruct Hres as [(_ & _ & ?)|(evs0 & c & e0 & H & _)];
      [done|].
    destruct evs0 as [|? [|? ?]]; simplify_eq/=.
  - unfold set_timeout_step in *. rewrite bind_the_request in *.
    unfold self_driver in *. rewrite Hd in *. unfold bind, raise in *.
    project_run. split_and!; try done; [apply prefix_nil|by eexists].
Qed.

Lemma cookies_without_iter_or_items_end_the_request_witness :
  result (process_request Demo.ext Demo.mw
            (Demo.w0, Selenium Demo.no_cookie_request))
  = inl (AttributeError "'NoneType' object has no attribute 'items'").
Proof.
  eapply (proj2 (proj2 (proj2
    (cookies_without_iter_or_items_end_the_request Demo.ext Demo.mw
       Demo.no_cookie_request Demo.w0 eq_refl eq_refl)))).
  vm_compute. reflexivity.
Defined.

(** X4.  Whatever [cookies] is, the cookies handed to
    [driver.add_cookie] are, in order, a prefix of what lines 129-141 make
    of it, and all of it once [driver.get] is called: the elements of a
    list as they are, and for an object that has [items] but no
    [__iter__] one [{'name': ..., 'value': ...}] dict for each pair. *)
Theorem cookies_are_added_in_order {B} (ext : Externals B) self r w :
  let run := process_request ext self (w, Selenium r) in
  (forall l,
     req_cookies r = VList l ->
     cookie_operations (req_cookies r) = map AddCookie l) /\
  (forall cls items,
     req_cookies r = VObject cls (Some items) ->
     cookie_operations (req_cookies r)
     = map (fun kv => AddCookie (VDict [(VStr "name", kv.1);
                                        (VStr "value", kv.2)])) items) /\
  List.filter is_add_cookie (calls_of (events run))
    `prefix_of` cookie_operations (req_cookies r) /\
  (forall url,
     Get url ∈ calls_of (events run) ->
     List.filter is_add_cookie (calls_of (events run))
     = cookie_operations (req_cookies r)).
Proof.
  cbv zeta. rewrite process_request_selenium. cbv zeta.
  change (events (?a, ?b, ?c)) with a.
  destruct (process_selenium_request_obeys ext self w r)
    as (d0 & _ & _ & _ & _ & _ & Hp & _).
  split_and!.
  - by intros l ->.
  - by intros cls items ->.
  - apply (filter_prefix is_add_cookie) in Hp.
    by rewrite filter_add_cookie_plan in Hp.
  - intros url Hget.
    destruct (calls_reaching_get _ _ _ _ Hp Hget) as (rest & -> & Hrest).
    rewrite !List.filter_app. simpl.
    rewrite (filter_all is_add_cookie (cookie_operations _)) by by_kind.
    apply (filter_prefix is_add_cookie) in Hrest.
    rewrite !List.filter_app in Hrest.
    rewrite (filter_none _ (wait_operations r)),
      (filter_none _ (screenshot_operations r)),
      (filter_none _ (script_operations r)) in Hrest by by_kind.
    apply prefix_nil_inv in Hrest. by rewrite Hrest, app_nil_r.
Qed.

Lemma cookies_are_added_in_order_witness :
  List.filter is_add_cookie
    (calls_of (events (process_request Demo.ext Demo.mw
                         (Demo.w0, Selenium Demo.full_request))))
  = [AddCookie Demo.session_cookie].
Proof.
  eapply (proj2 (proj2 (proj2
    (cookies_are_added_in_order Demo.ext Demo.mw Demo.full_request
       Demo.w0))) "https://example.org/").
  vm_compute. right. right. left.
Defined.

(** ** Runs that raise *)

Lemma app_singleton_tail {X} (l A rest : list X) x :
  l ++ [x] = A ++ rest -> rest = [] \/ x ∈ rest.
Proof.
  destruct rest as [|y rest _] using rev_ind; [by left|].
  rewrite (assoc_L (++)). intros [_ ->]%app_inj_tail.
  right. apply elem_of_app. right. constructor.
Qed.

Lemma request_after_without_screenshot r evs :
  (forall d png, DriverCalled d GetScreenshotAsPng (inr png) ∉ evs) ->
  request_after r evs = r.
Proof.
  revert r. induction evs as [|ev evs IH]; intros r Hno; [done|].
  unfold request_after. simpl.
  fold (request_after (stored_screenshot r ev) evs).
  assert (stored_screenshot r ev = r) as ->.
  { destruct ev as [|d [] [e|png]]; try done.
    destruct (Hno d png). constructor. }
  apply IH. intros d png Hin. apply (Hno d png). by constructor.
Qed.

(** X5.  When [driver.get] raises, whatever it raises, the request ends
    there: the operations of the run are the timeout, the cookies and
    that one [get], each operation before it returned, no wait, no
    screenshot and no script follows, and the request is left as it
    was. *)
Theorem navigation_failure_ends_the_request
    {B} (ext : Externals B) self r w d url e0 :
  let run := process_request ext self (w, Selenium r) in
  DriverCalled d (Get url) (inl e0) ∈ events run ->
  url = req_url r /\
  calls_of (events run)
  = [SetPageLoadTimeout (page_load_timeout self r)]
      ++ cookie_operations (req_cookies r) ++ [Get (req_url r)] /\
  (exists evs0,
     events run = evs0 ++ [DriverCalled d (Get url) (inl e0)] /\
     forallb succeeded evs0 = true) /\
  (state run).2 = Selenium r.
Proof.
  cbv zeta. rewrite process_request_selenium. cbv zeta.
  pose proof (tracks_process_selenium_request ext self w r) as Htrack.
  destruct (process_selenium_request_obeys ext self w r)
    as (d0 & Hd & _ & _ & _ & _ & Hp & Hres).
  destruct (process_selenium_request ext self (w, r))
    as [[evs [w' r']] res]. project_run. intros Hin.
  assert (Hlast : exists evs0,
    evs = evs0 ++ [DriverCalled d (Get url) (inl e0)] /\
    forallb succeeded evs0 = true).
  { destruct res as [e|x].
    - destruct Hres as [(Hs & _)|(evs0 & c & e' & -> & Hs & _)].
      + destruct (no_failed_event _ _ _ _ Hs Hin).
      + exists evs0. split; [|done].
        destruct (failed_event_last _ _ _ _ _ _ _ Hs Hin) as [-> ->].
        apply elem_of_app in Hin as [Hin|Hin].
        * destruct (no_failed_event _ _ _ _ Hs Hin).
        * apply list_elem_of_singleton in Hin. by injection Hin as ->.
    - destruct Hres as (_ & Hs & _).
      destruct (no_failed_event _ _ _ _ Hs Hin). }
  destruct Hlast as (evs0 & -> & Hs).
  rewrite calls_of_app in *.
  change (calls_of [DriverCalled d (Get url) (inl e0)]) with [Get url] in *.
  assert (Hget : Get url ∈ calls_of evs0 ++ [Get url]).
  { apply elem_of_app. right. constructor. }
  destruct (calls_reaching_get _ _ _ _ Hp Hget) as (rest & Hcalls & Hrest).
  rewrite !(assoc_L (++)) in Hcalls.
  destruct (app_singleton_tail _ _ _ _ Hcalls) as [->|Hin'].
  - rewrite app_nil_r in Hcalls.
    apply app_inj_tail in Hcalls as [Hcalls Hurl]. injection Hurl as ->.
    split_and!; [done| |by exists evs0|].
    + by rewrite Hcalls, !(assoc_L (++)).
    + rewrite Htrack. f_equal. apply request_after_no_screenshot.
      rewrite calls_of_app, Hcalls, !List.filter_app. simpl.
      by rewrite filter_none by by_kind.
  - exfalso. destruct Hrest as [k Hk].
    assert (Hin'' : Get url ∈ wait_operations r ++ screenshot_operations r
                               ++ script_operations r).
    { rewrite Hk. apply elem_of_app. by left. }
    rewrite !elem_of_app in Hin''. destruct Hin'' as [H|[H|H]].
    + by apply wait_operations_kind in H as [? _].
    + by apply screenshot_operations_kind in H.
    + by apply script_operations_kind in H.
Qed.

Lemma navigation_failure_ends_the_request_witness :
  calls_of (events (process_request Demo.ext Demo.mw
     (Demo.w0, Selenium (Demo.bare_request "https://down.example/"))))
  = [SetPageLoadTimeout (VFloat 4640537203540230144);
     Get "https://down.example/"].
Proof.
  eapply (proj1 (proj2
    (navigation_failure_ends_the_request Demo.ext Demo.mw
       (Demo.bare_request "https://down.example/") Demo.w0 0%nat
       "https://down.example/"
       (WebDriverException "net::ERR_CONNECTION_REFUSED") _))).
  Unshelve. vm_compute. right. left.
Defined.

(** X6.  When [process_request] raises without having come to the
    scripts, the request differs from the one it was given only if the
    screenshot was taken and returned: then [meta['screenshot']] holds the
    bytes returned, and nothing else has changed; without a screenshot
    that returned the request is exactly as it was. *)
Theorem a_raising_run_changes_only_the_screenshot
    {B} (ext : Externals B) self r w e :
  let run := process_request ext self (w, Selenium r) in
  result run = inl e ->
  (forall l, HandleSeleniumScripts l ∉ calls_of (events run)) ->
  (state run).2 = Selenium (request_after r (events run)) /\
  ((forall d png,
      DriverCalled d GetScreenshotAsPng (inr png) ∉ events run) ->
   (state run).2 = Selenium r) /\
  (forall d png,
     DriverCalled d GetScreenshotAsPng (inr png) ∈ events run ->
     (state run).2 = Selenium (set_meta r "screenshot" png)).
Proof.
  cbv zeta. rewrite process_request_selenium. cbv zeta.
  pose proof (tracks_process_selenium_request ext self w r) as Htrack.
  destruct (process_selenium_request_obeys ext self w r)
    as (d0 & _ & _ & _ & _ & _ & Hp & _).
  destruct (process_selenium_request ext self (w, r))
    as [[evs [w' r']] res]. project_run. intros _ _. subst r'.
  split_and!; [done| |].
  - intros Hno. by rewrite request_after_without_screenshot.
  - intros d png Hin.
    apply list_elem_of_split in Hin as (l1 & l2 & ->).
    apply (filter_prefix is_screenshot) in Hp.
    assert (Hplan : List.filter is_screenshot (driver_operations self r)
                    = screenshot_operations r).
    { unfold driver_operations. rewrite !List.filter_app. simpl.
      rewrite (filter_all is_screenshot (screenshot_operations r))
        by by_kind.
      rewrite !filter_none by by_kind. by rewrite app_nil_r. }
    rewrite Hplan in Hp.
    change (l1 ++ DriverCalled d GetScreenshotAsPng (inr png) :: l2)
      with (l1 ++ [DriverCalled d GetScreenshotAsPng (inr png)] ++ l2)
      in *.
    rewrite !calls_of_app, !List.filter_app in Hp. simpl in Hp.
    apply prefix_length in Hp. rewrite length_app in Hp. simpl in Hp.
    assert (length (screenshot_operations r) <= 1)%nat.
    { unfold screenshot_operations. destruct (truthy _); simpl; lia. }
    assert (H1 : List.filter is_screenshot (calls_of l1) = []).
    { destruct (List.filter _ (calls_of l1)); [done|simpl in *; lia]. }
    assert (H2 : List.filter is_screenshot (calls_of l2) = []).
    { destruct (List.filter _ (calls_of l2)); [done|simpl in *; lia]. }
    rewrite !request_after_app, (request_after_no_screenshot _ _ H1).
    simpl. by rewrite (request_after_no_screenshot _ _ H2).
Qed.

(** The screenshot is stored, then the script list turns out to have no
    length. *)
Lemma a_raising_run_changes_only_the_screenshot_witness :
  (state (process_request Demo.ext Demo.mw
            (Demo.w0, Selenium Demo.odd_request))).2
  = Selenium (set_meta Demo.odd_request "screenshot" Demo.png_magic).
Proof.
  eapply (proj2 (proj2
    (a_raising_run_changes_only_the_screenshot Demo.ext Demo.mw
       Demo.odd_request Demo.w0
       (TypeError "object of type 'int' has no len()") _ _)) 0%nat).
  vm_compute. right. right. left.
  Unshelve.
  - vm_compute. reflexivity.
  - intros l Hin. vm_compute in Hin.
    repeat (apply elem_of_cons in Hin as [Hin|Hin]; [discriminate|]).
    by apply elem_of_nil in Hin.
Defined.

(** X7.  [IgnoreRequest] leaves [process_request] only for a driver
    operation that raised: either [driver.get] raised a
    [TimeoutException], which is the one wrapped in the [TimeoutError],
    or the operation raised that very [IgnoreRequest] itself. *)
Theorem ignore_request_means_navigation_timeout
    {B} (ext : Externals B) self r w x :
  let run := process_request ext self (w, Selenium r) in
  result run = inl (IgnoreRequest x) ->
  exists d c e0,
    DriverCalled d c (inl e0) ∈ events run /\
    ((c = Get (req_url r) /\
      exists msg,
        e0 = TimeoutException msg /\
        x = TimeoutError e0 "scrapy-selenium : request timeout") \/
     e0 = IgnoreRequest x).
Proof.
  cbv zeta. rewrite process_request_selenium. cbv zeta.
  destruct (process_selenium_request_obeys ext self w r)
    as (d0 & _ & _ & _ & _ & _ & Hp & Hres).
  destruct (process_selenium_request ext self (w, r))
    as [[evs [w' r']] [e|resp]]; project_run; [|done].
  intros [= ->].
  destruct Hres as [(_ & [] & _)|(evs0 & c & e0 & -> & Hs & He)].
  exists d0, c, e0. split; [apply elem_of_app; right; constructor|].
  destruct c; try (by right).
  destruct e0; try (by right). simpl in He. injection He as <-.
  left. split; [|by eexists].
  rewrite calls_of_app in Hp.
  assert (Hget : Get url ∈ calls_of evs0
                   ++ calls_of [DriverCalled d0 (Get url)
                                  (inl (TimeoutException msg))]).
  { apply elem_of_app. right. constructor. }
  destruct (calls_reaching_get _ _ _ _ Hp Hget) as (rest & Hcalls & Hrest).
  change (calls_of [DriverCalled d0 (Get url) (inl (TimeoutException msg))])
    with [Get url] in Hcalls.
  rewrite !(assoc_L (++)) in Hcalls.
  destruct (app_singleton_tail _ _ _ _ Hcalls) as [->|Hin'].
  - rewrite app_nil_r in Hcalls. by apply app_inj_tail in Hcalls as [_ ->].
  - exfalso. destruct Hrest as [k Hk].
    assert (Hin'' : Get url ∈ wait_operations r ++ screenshot_operations r
                               ++ script_operations r).
    { rewrite Hk. apply elem_of_app. by left. }
    rewrite !elem_of_app in Hin''. destruct Hin'' as [H|[H|H]].
    + by apply wait_operations_kind in H as [? _].
    + by apply screenshot_operations_kind in H.
    + by apply script_operations_kind in H.
Qed.

Lemma ignore_request_means_navigation_timeout_witness :
  exists d c e0,
    DriverCalled d c (inl e0)
      ∈ events (process_request Demo.ext Demo.mw
          (Demo.w0, Selenium (Demo.bare_request "https://slow.example/")))
    /\ ((c = Get "https://slow.example/" /\
         exists msg,
           e0 = TimeoutException msg /\
           TimeoutError
             (TimeoutException "timeout: Timed out receiving message")
             "scrapy-selenium : request timeout"
           = TimeoutError e0 "scrapy-selenium : request timeout") \/
        e0 = IgnoreRequest
               (TimeoutError
                  (TimeoutException "timeout: Timed out receiving message")
                  "scrapy-selenium : request timeout")).
Proof.
  exact (ignore_request_means_navigation_timeout Demo.ext Demo.mw
           (Demo.bare_request "https://slow.example/") Demo.w0 _ eq_refl).
Defined.

(** ** What [process_request] leaves alone *)

(** X8.  [process_request] starts no driver and quits none, and the only
    browser it touches is the one of the middleware's own driver: the
    count of drivers and the browser of every other driver are as they
    were, for every request and also when the method raises. *)
Theorem process_request_touches_only_its_driver
    {B} (ext : Externals B) self s :
  let run := process_request ext self s in
  w_next (state run).1 = w_next s.1 /\
  (forall i, mw_driver self <> Some i ->
     w_browser (state run).1 i = w_browser s.1 i) /\
  forallb (fun ev => negb (is_created ev)) (events run) = true /\
  (forall c, c ∈ calls_of (events run) -> is_quit c = false).
Proof.
  cbv zeta. destruct s as [w [url cookies meta|r]].
  { unfold process_request. cbn [fst snd]. project_run.
    split_and!; try done. by intros c ?%elem_of_nil. }
  rewrite process_request_selenium. cbv zeta. cbn [fst snd].
  destruct (mw_driver self) as [d|] eqn:Hd.
  - pose proof (governed_process_selenium_request ext self d Hd w r)
      as (_ & Hn & Ho & Hr & Hp & _).
    destruct (process_selenium_request ext self (w, r))
      as [[evs [w' r']] res]. project_run.
    split_and!; [done| | |].
    + intros i Hi. apply Ho. congruence.
    + apply forallb_forall. intros ev Hin. apply list_elem_of_In in Hin.
      apply (f_equal fst) in Hr. cbn [fst] in Hr. rewrite <- Hr in Hin.
      by apply replay_events in Hin as (c & out & -> & _).
    + intros c Hc. apply (driver_operations_no_quit self r).
      destruct Hp as [k ->]. apply elem_of_app. by left.
  - rewrite process_selenium_request_no_driver by done. project_run.
    split_and!; try done. by intros c ?%elem_of_nil.
Qed.

(** The full request of the demonstration, served by driver 0, leaves
    the browser of driver 1 alone. *)
Lemma process_request_touches_only_its_driver_witness :
  w_browser (state (process_request Demo.ext Demo.mw
                      (Demo.w0, Selenium Demo.full_request))).1 1%nat
  = w_browser Demo.w0 1%nat.
Proof.
  apply (proj1 (proj2 (process_request_touches_only_its_driver Demo.ext
                         Demo.mw (Demo.w0, Selenium Demo.full_request)))).
  discriminate.
Defined.

(** ** The constructor *)

Section Constructor.

Context {B : Type} (ext : Externals B).

Lemma add_arguments_returns args o o' :
  add_arguments ext args o = inr o' ->
  accepted ext args /\
  o' = {| binary_location := binary_location o;
          arguments := arguments o ++ args |}.
Proof.
  revert o. induction args as [|a args IH]; intros o; simpl.
  - intros [= <-]. split; [constructor|]. rewrite app_nil_r. by destruct o.
  - destruct (options_add_argument ext a) eqn:Ha; [done|].
    intros [Hacc ->]%IH. split; [by constructor|].
    simpl. by rewrite <- (assoc_L (++)).
Qed.


(** What a constructor that returns has done. *)
Lemma init_returns name path browser executor args timeout w self :
  let run := __init__ ext name path browser executor args timeout w in
  result run = inr self ->
  mw_timeout self = timeout /\
  import_module ext
    (("selenium.webdriver." ++ py_str ext name) ++ ".webdriver")%string
  = None /\
  exists arguments,
    py_iter args = Some arguments /\
    accepted ext arguments /\
    let options :=
      {| binary_location :=
           if truthy browser then Some browser else None;
         arguments := arguments |} in
    events run =
      (if negb (is_None path) then
         [DriverCreated (w_next w)
            (LocalDriver ("selenium.webdriver." ++ py_str ext name)%string
               path options)]
       else if negb (is_None executor) then
         [DriverCreated (w_next w) (RemoteDriver executor options)]
       else []) /\
    mw_driver self =
      (if is_None path && is_None executor then None
       else Some (w_next w)) /\
    w_next (state run) =
      (if is_None path && is_None executor then w_next w
       else S (w_next w)).
Proof.
  cbv zeta.
  unfold __init__, bind, do_import, from_sum, raise, ret, new_driver.
  repeat (case_match; simplify_eq/=; project_run; try done);
    intros [= <-];
    (split; [done|]); (split; [done|]);
    match goal with
    | H : add_arguments _ _ _ = inr _ |- _ =>
        apply add_arguments_returns in H as [? ->]
    end;
    eexists; (split; [done|]); (split; [done|]);
    repeat match goal with
           | H : context [is_None ?x] |- _ => destruct (is_None x)
           end;
    by simplify_eq/=.
Qed.

End Constructor.

(** X9.  A constructor that returns has imported the driver's module,
    has handed every element of [driver_arguments] to [add_argument], in
    order, and has set the browser binary exactly when
    [browser_executable_path] is truthy.  It has started one driver with
    these options: a local one whenever [driver_executable_path] is not
    [None], also when [command_executor] is given too, a remote one when
    only [command_executor] is given, and none when both are [None]. *)
Theorem constructor_starts_the_configured_driver
    {B} (ext : Externals B) name path browser executor args timeout w self :
  let run := __init__ ext name path browser executor args timeout w in
  result run = inr self ->
  mw_timeout self = timeout /\
  import_module ext
    (("selenium.webdriver." ++ py_str ext name) ++ ".webdriver")%string
  = None /\
  exists arguments,
    py_iter args = Some arguments /\
    accepted ext arguments /\
    let options :=
      {| binary_location :=
           if truthy browser then Some browser else None;
         arguments := arguments |} in
    events run =
      (if negb (is_None path) then
         [DriverCreated (w_next w)
            (LocalDriver ("selenium.webdriver." ++ py_str ext name)%string
               path options)]
       else if negb (is_None executor) then
         [DriverCreated (w_next w) (RemoteDriver executor options)]
       else []) /\
    mw_driver self =
      (if is_None path && is_None executor then None
       else Some (w_next w)) /\
    w_next (state run) =
      (if is_None path && is_None executor then w_next w
       else S (w_next w)).
Proof. apply init_returns. Qed.

(** Both a driver path and a remote endpoint: the driver is local. *)
Lemma constructor_starts_the_configured_driver_witness :
  events (__init__ Demo.ext (VStr "chrome") (VStr "/usr/bin/chromedriver")
            (VStr "") (VStr "http://hub:4444/wd/hub")
            (VList [VStr "--headless"; VStr "--no-sandbox"]) (VInt 60)
            Demo.w0)
  = [DriverCreated 0%nat
       (LocalDriver "selenium.webdriver.chrome"
          (VStr "/usr/bin/chromedriver")
          {| binary_location := None;
             arguments := [VStr "--headless"; VStr "--no-sandbox"] |})].
Proof.
  destruct (constructor_starts_the_configured_driver Demo.ext
              (VStr "chrome") (VStr "/usr/bin/chromedriver") (VStr "")
              (VStr "http://hub:4444/wd/hub")
              (VList [VStr "--headless"; VStr "--no-sandbox"]) (VInt 60)
              Demo.w0
              {| mw_timeout := VInt 60; mw_driver := Some 0%nat |} eq_refl)
    as (_ & _ & arguments & Hargs & _ & Hev & _).
  injection Hargs as <-. exact Hev.
Defined.



(** X11.  The constructor does not ask for a driver: with neither
    [driver_executable_path] nor [command_executor] it returns an
    instance that has no [driver] attribute, and on that instance
    [process_request] of every [SeleniumRequest] and [spider_closed]
    raise [AttributeError], touching nothing. *)
Theorem constructor_without_a_driver
    {B} (ext : Externals B) name path browser executor args timeout w self :
  is_None path = true ->
  is_None executor = true ->
  let run := __init__ ext name path browser executor args timeout w in
  result run = inr self ->
  events run = [] /\
  mw_driver self = None /\
  w_next (state run) = w_next w /\
  (forall w' r,
     process_request ext self (w', Selenium r)
     = ([], (w', Selenium r),
        inl (AttributeError
               "'SeleniumMiddleware' object has no attribute 'driver'"))) /\
  (forall w',
     spider_closed ext self w'
     = ([], w',
        inl (AttributeError
               "'SeleniumMiddleware' object has no attribute 'driver'"))).
Proof.
  intros Hp He run Hres. subst run.
  destruct (init_returns ext _ _ _ _ _ _ _ _ Hres)
    as (_ & _ & arguments & _ & _ & Hev & Hd & Hn).
  rewrite Hp, He in *. simpl in *.
  split_and!; [done..| |].
  - intros w' r. rewrite process_request_selenium,
      process_selenium_request_no_driver by done. done.
  - intros w'. unfold spider_closed, self_driver, bind, raise.
    by rewrite Hd.
Qed.

Lemma constructor_without_a_driver_witness :
  exists self,
    result (__init__ Demo.ext (VStr "firefox") VNone VNone VNone
              (VList []) (VInt 60) Demo.w0) = inr self /\
    result (process_request Demo.ext self
              (Demo.w0, Selenium Demo.full_request))
    = inl (AttributeError
             "'SeleniumMiddleware' object has no attribute 'driver'").
Proof.
  exists {| mw_timeout := VInt 60; mw_driver := None |}.
  split; [reflexivity|].
  destruct (constructor_without_a_driver Demo.ext (VStr "firefox") VNone
              VNone VNone (VList []) (VInt 60) Demo.w0
              {| mw_timeout := VInt 60; mw_driver := None |}
              eq_refl eq_refl eq_refl)
    as (_ & _ & _ & Hpr & _).
  by rewrite Hpr.
Defined.

(** ** from_crawler, failing and returning *)

Section FromCrawlerRuns.

Context {B : Type} (ext : Externals B).

Lemma from_crawler_raises w crawler e :
  result (from_crawler ext (w, crawler)) = inl e ->
  from_crawler ext (w, crawler) = ([], (w, crawler), inl e).
Proof.
  destruct (settings_getfloat ext (settings crawler) "DOWNLOAD_TIMEOUT")
    as [e'|timeout] eqn:Hfloat.
  { unfold from_crawler. rewrite bind_get_state. cbn [snd].
    rewrite Hfloat. unfold bind, from_sum. project_run. by intros [= ->]. }
  destruct (unset (settings crawler) "SELENIUM_DRIVER_NAME") eqn:Hname.
  { unfold from_crawler, unset in *. rewrite bind_get_state. cbn [snd].
    rewrite Hfloat, bind_from_sum_inr, Hname. unfold raise. project_run.
    by intros [= ->]. }
  destruct (unset (settings crawler) "SELENIUM_DRIVER_EXECUTABLE_PATH"
            && unset (settings crawler) "SELENIUM_COMMAND_EXECUTOR")
    eqn:Hpaths.
  { unfold from_crawler, unset in *. rewrite bind_get_state. cbn [snd].
    rewrite Hfloat, bind_from_sum_inr, Hname, Hpaths. unfold raise.
    project_run. by intros [= ->]. }
  rewrite (from_crawler_builds ext w crawler timeout Hfloat Hname Hpaths).
  match goal with |- context [__init__ ext ?a1 ?a2 ?a3 ?a4 ?a5 ?a6 ?a7] =>
    pose proof (init_run ext a1 a2 a3 a4 a5 a6 a7) as Hinit;
    destruct (__init__ ext a1 a2 a3 a4 a5 a6 a7) as [[evs w'] [e'|m]]
  end; project_run; [|done].
  destruct Hinit as [-> ->]. by intros [= ->].
Qed.

Lemma from_crawler_returns w crawler self :
  let st := settings crawler in
  let run := from_crawler ext (w, crawler) in
  result run = inr self ->
  settings_getfloat ext st "DOWNLOAD_TIMEOUT" = inr (mw_timeout self) /\
  unset st "SELENIUM_DRIVER_NAME" = false /\
  mw_driver self = Some (w_next w) /\
  w_next (state run).1 = S (w_next w) /\
  (exists options,
     accepted ext (arguments options) /\
     py_iter (settings_get st "SELENIUM_DRIVER_ARGUMENTS" VNone)
     = Some (arguments options) /\
     events run =
       [DriverCreated (w_next w)
          (if unset st "SELENIUM_DRIVER_EXECUTABLE_PATH" then
             RemoteDriver
               (settings_get st "SELENIUM_COMMAND_EXECUTOR" VNone) options
           else
             LocalDriver
               ("selenium.webdriver."
                  ++ py_str ext
                       (settings_get st "SELENIUM_DRIVER_NAME" VNone))%string
               (settings_get st "SELENIUM_DRIVER_EXECUTABLE_PATH" VNone)
               options)]) /\
  settings (state run).2 = settings crawler /\
  signals (state run).2
  = signals crawler ++ [(bound_spider_closed self, sig_spider_closed)].
Proof.
  cbv zeta.
  destruct (settings_getfloat ext (settings crawler) "DOWNLOAD_TIMEOUT")
    as [e'|timeout] eqn:Hfloat.
  { unfold from_crawler. rewrite bind_get_state. cbn [snd].
    rewrite Hfloat. unfold bind, from_sum. by project_run. }
  destruct (unset (settings crawler) "SELENIUM_DRIVER_NAME") eqn:Hname.
  { unfold from_crawler, unset in *. rewrite bind_get_state. cbn [snd].
    rewrite Hfloat, bind_from_sum_inr, Hname. unfold raise. by project_run. }
  destruct (unset (settings crawler) "SELENIUM_DRIVER_EXECUTABLE_PATH"
            && unset (settings crawler) "SELENIUM_COMMAND_EXECUTOR")
    eqn:Hpaths.
  { unfold from_crawler, unset in *. rewrite bind_get_state. cbn [snd].
    rewrite Hfloat, bind_from_sum_inr, Hname, Hpaths. unfold raise.
    by project_run. }
  rewrite (from_crawler_builds ext w crawler timeout Hfloat Hname Hpaths).
  match goal with |- context [__init__ ext ?a1 ?a2 ?a3 ?a4 ?a5 ?a6 ?a7] =>
    pose proof (init_returns ext a1 a2 a3 a4 a5 a6 a7) as Hinit;
    destruct (__init__ ext a1 a2 a3 a4 a5 a6 a7) as [[evs w'] [e'|m]]
  end; project_run; [done|].
  intros [= ->].
  destruct (Hinit self eq_refl)
    as (-> & _ & args & Hargs & Hacc & Hev & Hd & Hn).
  unfold unset in *. rewrite Hpaths in Hd, Hn.
  split_and!; [done..| |done|done].
  eexists {| binary_location := _; arguments := args |}.
  split_and!; [done..|]. rewrite Hev.
  destruct (is_None (settings_get _ "SELENIUM_DRIVER_EXECUTABLE_PATH" _));
    [|done].
  simpl in Hpaths. by rewrite Hpaths.
Qed.

End FromCrawlerRuns.

(** X12.  [from_crawler] is all or nothing: when it raises, whatever it
    raises, no driver has been started, no receiver has been connected,
    and the world and the crawler are as they were. *)
Theorem from_crawler_raises_without_a_trace
    {B} (ext : Externals B) w crawler e :
  result (from_crawler ext (w, crawler)) = inl e ->
  from_crawler ext (w, crawler) = ([], (w, crawler), inl e).
Proof. apply from_crawler_raises. Qed.

Lemma from_crawler_raises_without_a_trace_witness :
  from_crawler Demo.ext (Demo.w0, Demo.crawler_without_arguments)
  = ([], (Demo.w0, Demo.crawler_without_arguments),
     inl (TypeError "'NoneType' object is not iterable")).
Proof.
  apply (from_crawler_raises_without_a_trace Demo.ext Demo.w0
           Demo.crawler_without_arguments). vm_compute. reflexivity.
Defined.

(** X13.  A middleware [from_crawler] returns always has a driver, the
    one it has just started, so none of its methods can miss the
    [driver] attribute; its timeout is [DOWNLOAD_TIMEOUT] as a float; the
    driver is local whenever [SELENIUM_DRIVER_EXECUTABLE_PATH] is set,
    also when [SELENIUM_COMMAND_EXECUTOR] is set too, and remote
    otherwise; its arguments are the elements of
    [SELENIUM_DRIVER_ARGUMENTS]; the settings are as they were and the
    receivers connected before are kept, in order, before the new one. *)
Theorem from_crawler_returns_a_driven_middleware
    {B} (ext : Externals B) w crawler self :
  let st := settings crawler in
  let run := from_crawler ext (w, crawler) in
  result run = inr self ->
  settings_getfloat ext st "DOWNLOAD_TIMEOUT" = inr (mw_timeout self) /\
  unset st "SELENIUM_DRIVER_NAME" = false /\
  mw_driver self = Some (w_next w) /\
  w_next (state run).1 = S (w_next w) /\
  (exists options,
     accepted ext (arguments options) /\
     py_iter (settings_get st "SELENIUM_DRIVER_ARGUMENTS" VNone)
     = Some (arguments options) /\
     events run =
       [DriverCreated (w_next w)
          (if unset st "SELENIUM_DRIVER_EXECUTABLE_PATH" then
             RemoteDriver
               (settings_get st "SELENIUM_COMMAND_EXECUTOR" VNone) options
           else
             LocalDriver
               ("selenium.webdriver."
                  ++ py_str ext
                       (settings_get st "SELENIUM_DRIVER_NAME" VNone))%string
               (settings_get st "SELENIUM_DRIVER_EXECUTABLE_PATH" VNone)
               options)]) /\
  settings (state run).2 = settings crawler /\
  signals (state run).2
  = signals crawler ++ [(bound_spider_closed self, sig_spider_closed)].
Proof. apply from_crawler_returns. Qed.

(** A project that sets both a driver path and a remote endpoint gets a
    local driver, and the receiver it had stays first. *)
Lemma from_crawler_returns_a_driven_middleware_witness :
  mw_driver Demo.mw = Some 0%nat /\
  signals (state (from_crawler Demo.ext
                    (Demo.w0, Demo.crawler_with_both))).2
  = [(other_receiver "stats", sig_spider_closed);
     (bound_spider_closed Demo.mw, sig_spider_closed)].
Proof.
  destruct (from_crawler_returns_a_driven_middleware Demo.ext Demo.w0
              Demo.crawler_with_both Demo.mw)
    as (_ & _ & Hd & _ & _ & _ & Hsig).
  { vm_compute. reflexivity. }
  split; [exact Hd|exact Hsig].
Defined.

(** ** A wait that fails *)

Lemma prefix_ending_in {X} (l A R : list X) x :
  (l ++ [x]) `prefix_of` A ++ R -> x ∉ R -> (l ++ [x]) `prefix_of` A.
Proof.
  intros [Hp|(l' & Heq & Hp)]%prefix_app_split Hx; [done|].
  destruct (app_singleton_tail _ _ _ _ Heq) as [->|Hin].
  - rewrite app_nil_r in Heq. by rewrite Heq.
  - destruct Hx. destruct Hp as [k ->]. apply elem_of_app. by left.
Qed.

(** X14.  When the wait raises, a timeout included, the exception
    leaves [process_request] as it was raised, not as [IgnoreRequest];
    the wait was the one of the request and came right after the
    navigation; no screenshot is taken, no script is run, and the request
    is left as it was. *)
Theorem wait_failure_ends_the_request
    {B} (ext : Externals B) self r w d t m e0 :
  let run := process_request ext self (w, Selenium r) in
  DriverCalled d (WebDriverWaitUntil t m) (inl e0) ∈ events run ->
  result run = inl e0 /\
  t = req_wait_time r /\
  m = req_wait_until r /\
  calls_of (events run)
  = [SetPageLoadTimeout (page_load_timeout self r)]
      ++ cookie_operations (req_cookies r)
      ++ [Get (req_url r); WebDriverWaitUntil t m] /\
  (exists evs0,
     events run = evs0 ++ [DriverCalled d (WebDriverWaitUntil t m) (inl e0)]
     /\ forallb succeeded evs0 = true) /\
  (state run).2 = Selenium r.
Proof.
  cbv zeta. rewrite process_request_selenium. cbv zeta.
  pose proof (tracks_process_selenium_request ext self w r) as Htrack.
  destruct (process_selenium_request_obeys ext self w r)
    as (d0 & Hd & _ & _ & _ & _ & Hp & Hres).
  destruct (process_selenium_request ext self (w, r))
    as [[evs [w' r']] res]. project_run. intros Hin.
  assert (Hlast : res = inl e0 /\ exists evs0,
    evs = evs0 ++ [DriverCalled d (WebDriverWaitUntil t m) (inl e0)] /\
    forallb succeeded evs0 = true).
  { destruct res as [e|x].
    - destruct Hres as [(Hs & _)|(evs0 & c & e' & -> & Hs & ->)].
      + destruct (no_failed_event _ _ _ _ Hs Hin).
      + destruct (failed_event_last _ _ _ _ _ _ _ Hs Hin) as [<- <-].
        split; [done|]. exists evs0. split; [|done].
        apply elem_of_app in Hin as [Hin|Hin].
        * destruct (no_failed_event _ _ _ _ Hs Hin).
        * apply list_elem_of_singleton in Hin. by injection Hin as ->.
    - destruct Hres as (_ & Hs & _).
      destruct (no_failed_event _ _ _ _ Hs Hin). }
  destruct Hlast as (-> & evs0 & -> & Hs).
  rewrite calls_of_app in *.
  change (calls_of [DriverCalled d (WebDriverWaitUntil t m) (inl e0)])
    with [WebDriverWaitUntil t m] in *.
  set (W := WebDriverWaitUntil t m) in *.
  set (A := [SetPageLoadTimeout (page_load_timeout self r)]
              ++ cookie_operations (req_cookies r) ++ [Get (req_url r)]).
  assert (HnotA : W ∉ A).
  { subst A W. rewrite !elem_of_app. intros [H|[H|H]].
    - by apply list_elem_of_singleton in H.
    - by apply cookie_operations_kind in H as [? ?].
    - by apply list_elem_of_singleton in H. }
  assert (Hplan : driver_operations self r
                  = (A ++ wait_operations r)
                      ++ (screenshot_operations r ++ script_operations r)).
  { subst A. unfold driver_operations. by rewrite <- !(assoc_L (++)). }
  rewrite Hplan in Hp.
  apply prefix_ending_in in Hp.
  2:{ subst W. rewrite elem_of_app. intros [H|H].
      - by apply screenshot_operations_kind in H.
      - by apply script_operations_kind in H. }
  apply prefix_app_split in Hp as [[k Hk]|(l' & Heq & Hl')].
  { destruct HnotA. rewrite Hk, !elem_of_app. left. right. constructor. }
  destruct (app_singleton_tail _ _ _ _ Heq) as [->|HW].
  { destruct HnotA. rewrite app_nil_r in Heq. rewrite <- Heq.
    apply elem_of_app. right. constructor. }
  assert (Hl : l' = [W] /\ t = req_wait_time r /\ m = req_wait_until r).
  { unfold wait_operations in Hl'. destruct (truthy (req_wait_until r)).
    - destruct l' as [|c [|c' l']].
      + by apply elem_of_nil in HW.
      + apply prefix_cons_inv_1 in Hl'. subst c.
        apply list_elem_of_singleton in HW. subst W.
        by injection HW as -> ->.
      + apply prefix_length in Hl'. simpl in Hl'. lia.
    - apply prefix_nil_inv in Hl'. subst l'. by apply elem_of_nil in HW. }
  destruct Hl as (-> & Ht & Hm).
  split_and!; [done..| |by exists evs0|].
  - rewrite Heq. subst A W. by rewrite <- !(assoc_L (++)).
  - rewrite Htrack. f_equal. apply request_after_no_screenshot.
    rewrite calls_of_app.
    change (calls_of [DriverCalled d W (inl e0)]) with [W].
    rewrite Heq. subst A W. rewrite !List.filter_app. simpl.
    by rewrite filter_none by by_kind.
Qed.

Lemma wait_failure_ends_the_request_witness :
  result (process_request Demo.ext Demo.mw
     (Demo.w0,
      Selenium (Demo.waiting_forever
                  (Demo.bare_request "https://example.org/"))))
  = inl (TimeoutException "").
Proof.
  eapply (proj1
    (wait_failure_ends_the_request Demo.ext Demo.mw
       (Demo.waiting_forever (Demo.bare_request "https://example.org/")) Demo.w0
       0%nat (VInt 5) (VCallable "never") (TimeoutException "") _)).
  Unshelve. vm_compute. right. right. left.
Defined.
